(** * aapt2 command utilities (frameworks/base/tools/aapt2/cmd/Util.cpp)

    A shallow embedding of the split-parameter parsing, the minSdk adjustment
    of split constraints, the split-manifest generation and the extraction of
    the application info from a binary manifest, with the properties the
    specification states about them.

    Conventions.
    - [Maybe<T>] is [option T]; [uint16_t], [uint32_t], [int] and [size_t]
      values are [Z], with the conversions written out where the code has one.
    - [std::set<ConfigDescription>] is the ascending list of its elements, as
      the iteration of the set yields them; [set_insert] is [std::set::insert].
    - [IDiagnostics] is the ordered log of what was reported, threaded through
      the functions that take an [IDiagnostics*].
    - out-parameters ([std::string* out_path], [SplitConstraints* out_split],
      [std::string* out_error]) are passed in and returned. *)

From Stdlib Require Import ZArith List String Ascii Bool Lia Sorted.
From Stdlib Require Import DecimalString.
Import ListNotations.

Local Open Scope string_scope.
Local Open Scope Z_scope.
Local Open Scope list_scope.

Infix "+:+" := String.append (at level 60, right associativity).

(* ------------------------------------------------------------------------- *)
(** ** Sources and diagnostics *)

(** Modelled from the spec: Source.h is not under src/. A source location is a
    file with an optional line number; [WithLine] attaches a line. *)
Record Source : Type := mkSource {
  path : string;
  line : option Z
}.

Definition WithLine (s : Source) (l : Z) : Source :=
  {| path := path s; line := Some l |}.

Inductive Level : Type := Note | Warn | Error.

(** Modelled from the spec: Diagnostics.h is not under src/. A message is
    optionally anchored to a source: [DiagMessage()] has none,
    [DiagMessage(source)] has that one; [<<] appends text. *)
Record DiagMessage : Type := mkDiagMessage {
  source : option Source;
  message : string
}.

Record DiagMessageActual : Type := mkActual {
  level : Level;
  diag_message : DiagMessage
}.

(** The sink is append-only and ordered. *)
Definition IDiagnostics : Type := list DiagMessageActual.

Definition diag_Error (diag : IDiagnostics) (m : DiagMessage) : IDiagnostics :=
  diag ++ [mkActual Error m].

Definition diag_Warn (diag : IDiagnostics) (m : DiagMessage) : IDiagnostics :=
  diag ++ [mkActual Warn m].

Definition diag_Note (diag : IDiagnostics) (m : DiagMessage) : IDiagnostics :=
  diag ++ [mkActual Note m].

(* ------------------------------------------------------------------------- *)
(** ** Configuration descriptions and split constraints *)

(** Modelled from the spec: ConfigDescription.h is not under src/. Util.cpp
    reads and writes the [density] and [sdkVersion] fields only; the remaining
    axes (locale, screen, ...) are kept as one component of a type the
    development is generic in. *)
Record ConfigDescription (Axes : Type) : Type := mkConfig {
  density : Z;
  sdkVersion : Z;
  otherAxes : Axes
}.

Arguments mkConfig {Axes} _ _ _.
Arguments density {Axes} _.
Arguments sdkVersion {Axes} _.
Arguments otherAxes {Axes} _.

(** The assignment [config.sdkVersion = v]. *)
Definition set_sdkVersion {Axes} (v : Z) (c : ConfigDescription Axes) :
  ConfigDescription Axes :=
  {| density := density c; sdkVersion := v; otherAxes := otherAxes c |}.

(** Modelled from the spec: ConfigDescription::CopyWithoutSdkVersion is not
    under src/; it is the copy that has the SDK-version axis cleared. *)
Definition CopyWithoutSdkVersion {Axes} (c : ConfigDescription Axes) :
  ConfigDescription Axes :=
  set_sdkVersion 0 c.

(** The collaborators of ConfigDescription that Util.cpp calls and that are
    not under src/: the qualifier parser, the printer behind [operator<<], the
    axis difference with its [CONFIG_DENSITY] bit, the default configuration
    and [operator<], the order of [std::set<ConfigDescription>]. *)
Class ConfigOps (Axes : Type) : Type := {
  Parse : string -> option (ConfigDescription Axes);
  toString : ConfigDescription Axes -> string;
  diff : ConfigDescription Axes -> ConfigDescription Axes -> Z;
  DefaultConfig : ConfigDescription Axes;
  CONFIG_DENSITY : Z;
  config_lt : ConfigDescription Axes -> ConfigDescription Axes -> bool
}.

(** What the spec requires of the order: a strict total order, consistent
    with equality, so that descriptors can be the keys of a set. *)
Class ConfigOrder (Axes : Type) `{ConfigOps Axes} : Prop := {
  config_lt_irrefl : forall a, config_lt a a = false;
  config_lt_trans : forall a b c,
    config_lt a b = true -> config_lt b c = true -> config_lt a c = true;
  config_lt_total : forall a b,
    config_lt a b = false -> config_lt b a = false -> a = b
}.

(** split/TableSplitter.h: [struct SplitConstraints { std::set<ConfigDescription> configs; }]. *)
Record SplitConstraints (Axes : Type) : Type := mkSplitConstraints {
  configs : list (ConfigDescription Axes)
}.

Arguments mkSplitConstraints {Axes} _.
Arguments configs {Axes} _.

Section ConfigSet.
Context {Axes : Type} `{ConfigOps Axes}.

(** [std::set::insert]: the element goes to its place in the ascending
    order; nothing changes when an equivalent element (neither less than the
    other) is there. *)
Fixpoint set_insert (c : ConfigDescription Axes)
         (s : list (ConfigDescription Axes)) : list (ConfigDescription Axes) :=
  match s with
  | [] => [c]
  | x :: rest =>
      if config_lt c x then c :: s
      else if config_lt x c then x :: set_insert c rest
      else s
  end.

Definition empty_constraints : SplitConstraints Axes := mkSplitConstraints [].

(** [constraints.configs.insert(c)]. *)
Definition insert_config (c : ConfigDescription Axes)
           (constraints : SplitConstraints Axes) : SplitConstraints Axes :=
  mkSplitConstraints (set_insert c (configs constraints)).

(** The invariant of [std::set]: strictly ascending elements. *)
Definition set_wf (s : list (ConfigDescription Axes)) : Prop :=
  StronglySorted (fun a b => config_lt a b = true) s.
End ConfigSet.

(* ------------------------------------------------------------------------- *)
(** ** Resource values and the XML document model *)

(** androidfw/ResourceTypes.h: [struct Res_value], of which Util.cpp reads
    [dataType] (uint8_t) and [data] (uint32_t). *)
Record Res_value : Type := mkRes_value {
  dataType : Z;
  data : Z
}.

(** Modelled from the spec: ResourceValues.h is not under src/. The compiled
    value of an attribute is an [Item]: a [String], a [BinaryPrimitive], or an
    item of another kind (reference, id, raw string, ...). *)
Inductive Item : Type :=
| Item_String (value : string)
| Item_BinaryPrimitive (value : Res_value)
| Item_Other.

(** [ValueCast<String>] and [ValueCast<BinaryPrimitive>]: the item when it is
    of the kind asked for, [nullptr] otherwise. *)
Definition ValueCast_String (i : Item) : option string :=
  match i with
  | Item_String s => Some s
  | _ => None
  end.

Definition ValueCast_BinaryPrimitive (i : Item) : option Res_value :=
  match i with
  | Item_BinaryPrimitive v => Some v
  | _ => None
  end.

(** The tags of [Res_value::dataType] and the android schema URI are protocol
    constants declared outside src/; [WIN32] is the build's [_WIN32] macro. *)
Class Platform : Type := {
  TYPE_FIRST_INT : Z;
  TYPE_LAST_INT : Z;
  TYPE_INT_DEC : Z;
  TYPE_INT_BOOLEAN : Z;
  kSchemaAndroid : string;
  WIN32 : bool
}.

(** ResourceUtils.h, not under src/: the text parsers of the fallback path. *)
Class ResourceUtils : Type := {
  ParseInt : string -> option Z;
  ParseSdkVersion : string -> option Z
}.

Module xml.

(** [xml::AaptAttribute(Attribute(), id)]: a default resource attribute and
    its resource id. *)
Record AaptAttribute : Type := mkAaptAttribute {
  id : option Z
}.

(** [xml::Attribute]: namespace, name, raw text, and the optional compiled
    attribute and compiled value. *)
Record Attribute : Type := mkAttribute {
  namespace_uri : string;
  name : string;
  value : string;
  compiled_attribute : option AaptAttribute;
  compiled_value : option Item
}.

(** Modelled from the spec: xml/XmlDom.h is not under src/. A node is a
    namespace declaration, an element or text; namespaces and elements have
    children. *)
Inductive Node : Type :=
| NamespaceNode (ns : Namespace)
| ElementNode (el : Element)
| TextNode (text : string)
with Namespace : Type :=
| mkNamespace (namespace_prefix : string) (namespace_uri : string)
              (children : list Node)
with Element : Type :=
| mkElement (line_number : Z) (namespace_uri : string) (name : string)
            (attributes : list Attribute) (children : list Node).

Definition line_number (el : Element) : Z :=
  match el with mkElement l _ _ _ _ => l end.
Definition el_namespace_uri (el : Element) : string :=
  match el with mkElement _ u _ _ _ => u end.
Definition el_name (el : Element) : string :=
  match el with mkElement _ _ n _ _ => n end.
Definition attributes (el : Element) : list Attribute :=
  match el with mkElement _ _ _ a _ => a end.
Definition children (el : Element) : list Node :=
  match el with mkElement _ _ _ _ c => c end.

(** [el->attributes.push_back(a)] and [el->AppendChild(n)]. *)
Definition push_attribute (a : Attribute) (el : Element) : Element :=
  match el with
  | mkElement l u n attrs c => mkElement l u n (attrs ++ [a]) c
  end.

Definition AppendChild (child : Node) (el : Element) : Element :=
  match el with
  | mkElement l u n attrs c => mkElement l u n attrs (c ++ [child])
  end.

Definition Namespace_AppendChild (child : Node) (ns : Namespace) : Namespace :=
  match ns with
  | mkNamespace p u c => mkNamespace p u (c ++ [child])
  end.

(** [xml::XmlResource]: the file it came from (of which Util.cpp reads the
    source) and the root node. *)
Record XmlResource : Type := mkXmlResource {
  file_source : Source;
  root : option Node
}.

(** Modelled from the spec: xml::FindRootElement is not under src/. The root
    element is the first element met when descending from the root node
    through the first child of each node that is not an element. *)
Fixpoint FindRootElement_node (n : Node) : option Element :=
  match n with
  | ElementNode el => Some el
  | NamespaceNode (mkNamespace _ _ c) =>
      match c with
      | [] => None
      | first :: _ => FindRootElement_node first
      end
  | TextNode _ => None
  end.

Definition FindRootElement (n : option Node) : option Element :=
  match n with
  | None => None
  | Some n => FindRootElement_node n
  end.

Definition attribute_matches (ns nm : string) (a : Attribute) : bool :=
  String.eqb (namespace_uri a) ns && String.eqb (name a) nm.

(** Modelled from the spec: Element::FindAttribute is not under src/; the
    attribute lookup by (namespace, name) over the ordered attribute list. *)
Definition FindAttribute (el : Element) (ns nm : string) : option Attribute :=
  find (attribute_matches ns nm) (attributes el).

Definition element_matches (ns nm : string) (n : Node) : bool :=
  match n with
  | ElementNode el => String.eqb (el_namespace_uri el) ns && String.eqb (el_name el) nm
  | _ => false
  end.

(** Modelled from the spec: Element::FindChild is not under src/; the child
    lookup by (namespace, name) over the child elements. *)
Definition FindChild (el : Element) (ns nm : string) : option Element :=
  match find (element_matches ns nm) (children el) with
  | Some (ElementNode child) => Some child
  | _ => None
  end.

(** The attribute with another raw text; used to state that an extractor
    does not read the text. *)
Definition set_value (text : string) (a : Attribute) : Attribute :=
  {| namespace_uri := namespace_uri a; name := name a; value := text;
     compiled_attribute := compiled_attribute a;
     compiled_value := compiled_value a |}.

End xml.

(* ------------------------------------------------------------------------- *)
(** ** String helpers of util/Util.h and the standard library *)

(** Modelled from the spec: util::Split is not under src/. The string is cut
    at every occurrence of the separator; a string without separator is one
    part, and empty parts are kept. *)
Fixpoint Split (str : string) (sep : ascii) : list string :=
  match str with
  | EmptyString => [EmptyString]
  | String c rest =>
      if Ascii.eqb c sep then EmptyString :: Split rest sep
      else
        match Split rest sep with
        | [] => [String c EmptyString]
        | part :: parts => String c part :: parts
        end
  end.

(** Modelled from the spec: util::Tokenize is not under src/. The tokens of a
    string are its pieces between the separators, in order. *)
Definition Tokenize (str : string) (sep : ascii) : list string :=
  Split str sep.

(** Modelled from the spec: util::Joiner is not under src/. The printed forms
    of the elements, in the container's iteration order, with the separator
    between two neighbours. *)
Definition Joiner {A : Type} (print : A -> string) (container : list A)
           (sep : string) : string :=
  String.concat sep (map print container).

(** [std::to_string] of an unsigned value: its decimal digits. *)
Definition to_string (v : Z) : string :=
  NilZero.string_of_uint (N.to_uint (Z.to_N v)).

(** The conversion of a [uint32_t] to [int]: values from 2^31 on wrap around
    to the negative numbers. *)
Definition uint32_to_int (v : Z) : Z :=
  if v <? 2 ^ 31 then v else v - 2 ^ 32.

(** Modelled from the spec: AppInfo.h is not under src/. The package, and the
    optional version code, revision code, split name and minimum SDK version;
    a default-constructed AppInfo has none of the optional ones. *)
Record AppInfo : Type := mkAppInfo {
  package : string;
  min_sdk_version : option Z;
  version_code : option Z;
  revision_code : option Z;
  split_name : option string
}.

Definition default_AppInfo : AppInfo :=
  {| package := ""; min_sdk_version := None; version_code := None;
     revision_code := None; split_name := None |}.

(** Modelled from the spec: the minimum SDK version is 0 when the manifest
    gives none. *)
Definition min_sdk_version_or_default (app_info : AppInfo) : Z :=
  match min_sdk_version app_info with
  | Some v => v
  | None => 0
  end.

(* ------------------------------------------------------------------------- *)
(** ** The functions of cmd/Util.cpp *)

Section Util.
Context {Axes : Type} `{ConfigOps Axes} `{Platform} `{ResourceUtils}.

(** [Maybe<uint16_t> ParseTargetDensityParameter(arg, diag)]. *)
Definition ParseTargetDensityParameter (arg : string) (diag : IDiagnostics) :
  option Z * IDiagnostics :=
  match Parse arg with
  | None =>
      (None,
       diag_Error diag
         (mkDiagMessage None
            ("invalid density '" +:+ arg +:+ "' for --preferred-density option")))
  | Some parsed =>
      (* Clear the version that can be automatically added. *)
      let preferred_density_config := set_sdkVersion 0 parsed in
      if negb (diff preferred_density_config DefaultConfig =? CONFIG_DENSITY) then
        (None,
         diag_Error diag
           (mkDiagMessage None
              ("invalid preferred density '" +:+ arg +:+ "'. "
               +:+ "Preferred density must only be a density value")))
      else (Some (density preferred_density_config), diag)
  end.

(** [sSeparator]: [';'] under [_WIN32], [':'] otherwise. *)
Definition sSeparator : ascii :=
  if WIN32 then ";"%char else ":"%char.

(** What a call of [ParseSplitParameter] leaves behind: the returned flag,
    the diagnostics, and the two out-parameters. *)
Record SplitParameterResult : Type := mkSplitResult {
  split_ok : bool;
  split_diag : IDiagnostics;
  out_path : string;
  out_split : SplitConstraints Axes
}.

(** The loop over [util::Tokenize(parts[1], ',')]. *)
Fixpoint ParseSplitParameter_configs (tokens : list string) (arg : string)
         (diag : IDiagnostics) (path : string)
         (split : SplitConstraints Axes) : SplitParameterResult :=
  match tokens with
  | [] => mkSplitResult true diag path split
  | config_str :: rest =>
      match Parse config_str with
      | None =>
          mkSplitResult false
            (diag_Error diag
               (mkDiagMessage None
                  ("invalid config '" +:+ config_str +:+ "' in split parameter '"
                   +:+ arg +:+ "'")))
            path split
      | Some config =>
          ParseSplitParameter_configs rest arg diag path (insert_config config split)
      end
  end.

(** [bool ParseSplitParameter(arg, diag, out_path, out_split)]; the last two
    arguments are what the out-parameters hold when the function is called. *)
Definition ParseSplitParameter (arg : string) (diag : IDiagnostics)
           (path0 : string) (split0 : SplitConstraints Axes) : SplitParameterResult :=
  let parts := Split arg sSeparator in
  if negb (Nat.eqb (List.length parts) 2) then
    mkSplitResult false
      (diag_Note
         (diag_Error diag
            (mkDiagMessage None ("invalid split parameter '" +:+ arg +:+ "'")))
         (mkDiagMessage None
            ("should be --split path/to/output.apk" +:+ String sSeparator ""
             +:+ "<config>[,<config>...].")))
      path0 split0
  else
    ParseSplitParameter_configs (Tokenize (nth 1 parts "") ","%char) arg diag
                                (nth 0 parts "") split0.

(** Vocabulary for the properties of [ParseSplitParameter]: [tokens] parse, in order, to [descriptors]. *)
Definition parse_all (tokens : list string)
           (descriptors : list (ConfigDescription Axes)) : Prop :=
  Forall2 (fun token descriptor => Parse token = Some descriptor) tokens descriptors.

(** The set after inserting [descriptors], in order, into [split]. *)
Definition insert_all (descriptors : list (ConfigDescription Axes))
           (split : SplitConstraints Axes) : SplitConstraints Axes :=
  fold_left (fun s d => insert_config d s) descriptors split.

(** What the adjustment makes of one descriptor: the copy without SDK version
    when its SDK version is at most [min_sdk], the descriptor itself
    otherwise. *)
Definition adjust_config (min_sdk : Z) (config : ConfigDescription Axes) :
  ConfigDescription Axes :=
  if sdkVersion config <=? min_sdk then CopyWithoutSdkVersion config else config.

(** The body of the inner loop: one [insert] into the constraint under
    construction. *)
Definition adjust_insert (min_sdk : Z) (constraint : SplitConstraints Axes)
           (config : ConfigDescription Axes) : SplitConstraints Axes :=
  if sdkVersion config <=? min_sdk
  then insert_config (CopyWithoutSdkVersion config) constraint
  else insert_config config constraint.

(** The inner loop, started from a fresh [SplitConstraints constraint]. *)
Definition adjust_constraints (min_sdk : Z) (constraints : SplitConstraints Axes) :
  SplitConstraints Axes :=
  fold_left (adjust_insert min_sdk) (configs constraints) empty_constraints.

(** [std::vector<SplitConstraints> AdjustSplitConstraintsForMinSdk(min_sdk,
    split_constraints)]: one adjusted constraint is pushed per input
    constraint, in order. *)
Definition AdjustSplitConstraintsForMinSdk (min_sdk : Z)
           (split_constraints : list (SplitConstraints Axes)) :
  list (SplitConstraints Axes) :=
  fold_left
    (fun adjusted_constraints constraints =>
       adjusted_constraints ++ [adjust_constraints min_sdk constraints])
    split_constraints [].

Definition CreateAttributeWithId (id : Z) : xml.AaptAttribute :=
  xml.mkAaptAttribute (Some id).

(** The text of the [split] attribute: [split_name.str()]. *)
Definition split_attribute_name (app_info : AppInfo)
           (constraints : SplitConstraints Axes) : string :=
  let split_name_buf :=
    match split_name app_info with
    | Some n => n +:+ "."
    | None => ""
    end in
  split_name_buf +:+ "config." +:+ Joiner toString (configs constraints) "_".

(** [std::unique_ptr<xml::XmlResource> GenerateSplitManifest(app_info,
    constraints)]. *)
Definition GenerateSplitManifest (app_info : AppInfo)
           (constraints : SplitConstraints Axes) : xml.XmlResource :=
  let kVersionCode := 0x0101021b in
  let kRevisionCode := 0x010104d5 in
  let kHasCode := 0x0101000c in
  let namespace_android := xml.mkNamespace "android" kSchemaAndroid [] in
  let manifest_el := xml.mkElement 0 "" "manifest" [] [] in
  let manifest_el :=
    xml.push_attribute (xml.mkAttribute "" "package" (package app_info) None None)
                       manifest_el in
  let manifest_el :=
    match version_code app_info with
    | Some version_code =>
        xml.push_attribute
          (xml.mkAttribute kSchemaAndroid "versionCode" (to_string version_code)
             (Some (CreateAttributeWithId kVersionCode))
             (Some (Item_BinaryPrimitive (mkRes_value TYPE_INT_DEC version_code))))
          manifest_el
    | None => manifest_el
    end in
  let manifest_el :=
    match revision_code app_info with
    | Some revision_code =>
        xml.push_attribute
          (xml.mkAttribute kSchemaAndroid "revisionCode" (to_string revision_code)
             (Some (CreateAttributeWithId kRevisionCode))
             (Some (Item_BinaryPrimitive (mkRes_value TYPE_INT_DEC revision_code))))
          manifest_el
    | None => manifest_el
    end in
  let manifest_el :=
    xml.push_attribute
      (xml.mkAttribute "" "split" (split_attribute_name app_info constraints) None None)
      manifest_el in
  let manifest_el :=
    match split_name app_info with
    | Some n =>
        xml.push_attribute (xml.mkAttribute "" "configForSplit" n None None) manifest_el
    | None => manifest_el
    end in
  let application_el := xml.mkElement 0 "" "application" [] [] in
  let application_el :=
    xml.push_attribute
      (xml.mkAttribute kSchemaAndroid "hasCode" "false"
         (Some (CreateAttributeWithId kHasCode))
         (Some (Item_BinaryPrimitive (mkRes_value TYPE_INT_BOOLEAN 0))))
      application_el in
  let manifest_el := xml.AppendChild (xml.ElementNode application_el) manifest_el in
  let namespace_android :=
    xml.Namespace_AppendChild (xml.ElementNode manifest_el) namespace_android in
  xml.mkXmlResource (mkSource "" None) (Some (xml.NamespaceNode namespace_android)).

(** [dataType >= TYPE_FIRST_INT && dataType <= TYPE_LAST_INT]. *)
Definition is_int_type (v : Res_value) : bool :=
  (TYPE_FIRST_INT <=? dataType v) && (dataType v <=? TYPE_LAST_INT).

(** A compiled value of the integer kind: a [BinaryPrimitive] whose tag is in
    the integer range. *)
Definition is_compiled_int (compiled : Item) : bool :=
  match compiled with
  | Item_BinaryPrimitive v => is_int_type v
  | _ => false
  end.

(** The three extractors return the extracted value and what [*out_error]
    holds afterwards. *)
Definition ExtractCompiledString (attr : xml.Attribute) (out_error : string) :
  option string * string :=
  match xml.compiled_value attr with
  | Some compiled =>
      match ValueCast_String compiled with
      | Some compiled_str =>
          if negb (String.eqb compiled_str "") then (Some compiled_str, out_error)
          else (None, "compiled value is an empty string")
      | None => (None, "compiled value is not a string")
      end
  | None =>
      (* Fallback to the plain text value if there is one. *)
      if negb (String.eqb (xml.value attr) "") then (Some (xml.value attr), out_error)
      else (None, "value is an empty string")
  end.

Definition ExtractCompiledInt (attr : xml.Attribute) (out_error : string) :
  option Z * string :=
  match xml.compiled_value attr with
  | Some compiled =>
      match ValueCast_BinaryPrimitive compiled with
      | Some compiled_prim =>
          if is_int_type compiled_prim then (Some (data compiled_prim), out_error)
          else (None, "compiled value is not an integer")
      | None => (None, "compiled value is not an integer")
      end
  | None =>
      (* Fallback to the plain text value if there is one. *)
      match ParseInt (xml.value attr) with
      | Some integer => (Some integer, out_error)
      | None => (None, "'" +:+ xml.value attr +:+ "' is not a valid integer")
      end
  end.

Definition ExtractSdkVersion (attr : xml.Attribute) (out_error : string) :
  option Z * string :=
  match xml.compiled_value attr with
  | Some compiled =>
      match ValueCast_BinaryPrimitive compiled with
      | Some compiled_prim =>
          if is_int_type compiled_prim
          then (Some (uint32_to_int (data compiled_prim)), out_error)
          else (None, "compiled value is not an integer or string")
      | None =>
          match ValueCast_String compiled with
          | Some compiled_str =>
              match ParseSdkVersion compiled_str with
              | Some sdk_version => (Some sdk_version, out_error)
              | None => (None, "compiled string value is not a valid SDK version")
              end
          | None => (None, "compiled value is not an integer or string")
          end
      end
  | None =>
      (* Fallback to the plain text value if there is one. *)
      match ParseSdkVersion (xml.value attr) with
      | Some sdk_version => (Some sdk_version, out_error)
      | None => (None, "'" +:+ xml.value attr +:+ "' is not a valid SDK version")
      end
  end.

(** The assignments to the fields of [app_info]. *)
Definition set_package (v : string) (a : AppInfo) : AppInfo :=
  {| package := v; min_sdk_version := min_sdk_version a;
     version_code := version_code a; revision_code := revision_code a;
     split_name := split_name a |}.

Definition set_version_code (v : Z) (a : AppInfo) : AppInfo :=
  {| package := package a; min_sdk_version := min_sdk_version a;
     version_code := Some v; revision_code := revision_code a;
     split_name := split_name a |}.

Definition set_revision_code (v : Z) (a : AppInfo) : AppInfo :=
  {| package := package a; min_sdk_version := min_sdk_version a;
     version_code := version_code a; revision_code := Some v;
     split_name := split_name a |}.

Definition set_split_name (v : string) (a : AppInfo) : AppInfo :=
  {| package := package a; min_sdk_version := min_sdk_version a;
     version_code := version_code a; revision_code := revision_code a;
     split_name := Some v |}.

Definition set_min_sdk_version (v : Z) (a : AppInfo) : AppInfo :=
  {| package := package a; min_sdk_version := Some v;
     version_code := version_code a; revision_code := revision_code a;
     split_name := split_name a |}.

(** [DiagMessage(xml_res->file.source.WithLine(el->line_number)) << what << error_msg]. *)
Definition invalid_at (xml_res : xml.XmlResource) (el : xml.Element)
           (what error_msg : string) : DiagMessage :=
  mkDiagMessage (Some (WithLine (xml.file_source xml_res) (xml.line_number el)))
                (what +:+ error_msg).

(** [Maybe<AppInfo> ExtractAppInfoFromBinaryManifest(xml_res, diag)], in the
    order of the source; every [return {}] is a [(None, _)]. *)
Definition ExtractAppInfoFromBinaryManifest (xml_res : xml.XmlResource)
           (diag : IDiagnostics) : option AppInfo * IDiagnostics :=
  (* Make sure the first element is <manifest> with package attribute. *)
  match xml.FindRootElement (xml.root xml_res) with
  | None => (None, diag)
  | Some manifest_el =>
  let app_info := default_AppInfo in
  if negb (String.eqb (xml.el_namespace_uri manifest_el) "")
     || negb (String.eqb (xml.el_name manifest_el) "manifest")
  then
    (None,
     diag_Error diag
       (mkDiagMessage (Some (xml.file_source xml_res)) "root tag must be <manifest>"))
  else
  match xml.FindAttribute manifest_el "" "package" with
  | None =>
      (None,
       diag_Error diag
         (mkDiagMessage (Some (xml.file_source xml_res))
                        "<manifest> must have a 'package' attribute"))
  | Some package_attr =>
  let error_msg := "" in
  match ExtractCompiledString package_attr error_msg with
  | (None, error_msg) =>
      (None,
       diag_Error diag (invalid_at xml_res manifest_el "invalid package name: " error_msg))
  | (Some maybe_package, error_msg) =>
  let app_info := set_package maybe_package app_info in
  match
    match xml.FindAttribute manifest_el kSchemaAndroid "versionCode" with
    | Some version_code_attr =>
        match ExtractCompiledInt version_code_attr error_msg with
        | (None, error_msg) => inl error_msg
        | (Some maybe_code, error_msg) =>
            inr (set_version_code maybe_code app_info, error_msg)
        end
    | None => inr (app_info, error_msg)
    end
  with
  | inl error_msg =>
      (None,
       diag_Error diag
         (invalid_at xml_res manifest_el "invalid android:versionCode: " error_msg))
  | inr (app_info, error_msg) =>
  match
    match xml.FindAttribute manifest_el kSchemaAndroid "revisionCode" with
    | Some revision_code_attr =>
        match ExtractCompiledInt revision_code_attr error_msg with
        | (None, error_msg) => inl error_msg
        | (Some maybe_code, error_msg) =>
            inr (set_revision_code maybe_code app_info, error_msg)
        end
    | None => inr (app_info, error_msg)
    end
  with
  | inl error_msg =>
      (None,
       diag_Error diag
         (invalid_at xml_res manifest_el "invalid android:revisionCode: " error_msg))
  | inr (app_info, error_msg) =>
  match
    match xml.FindAttribute manifest_el "" "split" with
    | Some split_name_attr =>
        match ExtractCompiledString split_name_attr error_msg with
        | (None, error_msg) => inl error_msg
        | (Some maybe_split_name, error_msg) =>
            inr (set_split_name maybe_split_name app_info, error_msg)
        end
    | None => inr (app_info, error_msg)
    end
  with
  | inl error_msg =>
      (None,
       diag_Error diag (invalid_at xml_res manifest_el "invalid split name: " error_msg))
  | inr (app_info, error_msg) =>
  match xml.FindChild manifest_el "" "uses-sdk" with
  | Some uses_sdk_el =>
      match xml.FindAttribute uses_sdk_el kSchemaAndroid "minSdkVersion" with
      | Some min_sdk =>
          match ExtractSdkVersion min_sdk error_msg with
          | (None, error_msg) =>
              (None,
               diag_Error diag
                 (invalid_at xml_res uses_sdk_el "invalid android:minSdkVersion: "
                             error_msg))
          | (Some maybe_sdk, _) => (Some (set_min_sdk_version maybe_sdk app_info), diag)
          end
      | None => (Some app_info, diag)
      end
  | None => (Some app_info, diag)
  end
  end end end end end end.
End Util.

(* ------------------------------------------------------------------------- *)
(** ** A small instance of the collaborators

    The properties below hold for every qualifier parser, printer, order and
    text parser. To run the functions on concrete inputs, this module gives
    one instance: descriptors whose remaining axis is a packed two-letter
    locale, a parser for three densities and for lower-case language codes,
    the lexicographic order, and decimal text parsers. *)

Module Sample.

Definition CONFIG_LOCALE : Z := 0x0004.
Definition CONFIG_DENSITY_BIT : Z := 0x0100.
Definition CONFIG_VERSION : Z := 0x0400.

Definition is_lower (c : ascii) : bool :=
  let n := Z.of_N (N_of_ascii c) in (97 <=? n) && (n <=? 122).

Definition locale_of (l c : ascii) : Z :=
  Z.of_N (N_of_ascii l) * 256 + Z.of_N (N_of_ascii c).

(** A density qualifier brings the SDK version that introduced densities (4)
    with it, as the real parser does. *)
Definition parse (s : string) : option (ConfigDescription Z) :=
  if String.eqb s "mdpi" then Some (mkConfig 160 4 0)
  else if String.eqb s "hdpi" then Some (mkConfig 240 4 0)
  else if String.eqb s "xhdpi" then Some (mkConfig 320 4 0)
  else
    match s with
    | String l (String c EmptyString) =>
        if is_lower l && is_lower c then Some (mkConfig 0 0 (locale_of l c)) else None
    | _ => None
    end.

Definition print (c : ConfigDescription Z) : string :=
  let locale :=
    if otherAxes c =? 0 then []
    else [String (ascii_of_N (Z.to_N (otherAxes c / 256)))
            (String (ascii_of_N (Z.to_N (otherAxes c mod 256))) "")] in
  let dens := if density c =? 0 then [] else [to_string (density c) +:+ "dpi"] in
  let version := if sdkVersion c =? 0 then [] else ["v" +:+ to_string (sdkVersion c)] in
  String.concat "-" (locale ++ dens ++ version).

Definition differ (a b : ConfigDescription Z) : Z :=
  Z.lor (if otherAxes a =? otherAxes b then 0 else CONFIG_LOCALE)
        (Z.lor (if density a =? density b then 0 else CONFIG_DENSITY_BIT)
               (if sdkVersion a =? sdkVersion b then 0 else CONFIG_VERSION)).

Definition less (a b : ConfigDescription Z) : bool :=
  if otherAxes a <? otherAxes b then true
  else if otherAxes b <? otherAxes a then false
  else if density a <? density b then true
  else if density b <? density a then false
  else sdkVersion a <? sdkVersion b.

#[export] Instance config_ops : ConfigOps Z := {
  Parse := parse;
  toString := print;
  diff := differ;
  DefaultConfig := mkConfig 0 0 0;
  CONFIG_DENSITY := CONFIG_DENSITY_BIT;
  config_lt := less
}.

#[export] Instance platform : Platform := {
  TYPE_FIRST_INT := 0x10;
  TYPE_LAST_INT := 0x1f;
  TYPE_INT_DEC := 0x10;
  TYPE_INT_BOOLEAN := 0x12;
  kSchemaAndroid := "http://schemas.android.com/apk/res/android";
  WIN32 := false
}.

Definition parse_decimal (s : string) : option Z :=
  match s with
  | EmptyString => None
  | _ =>
      match NilEmpty.uint_of_string s with
      | Some u => Some (Z.of_N (N.of_uint u))
      | None => None
      end
  end.

#[export] Instance resource_utils : ResourceUtils := {
  ParseInt := parse_decimal;
  ParseSdkVersion := parse_decimal
}.

(** Descriptors and documents of the examples. *)
Definition en : ConfigDescription Z := mkConfig 0 0 (locale_of "e" "n").
Definition fr : ConfigDescription Z := mkConfig 0 0 (locale_of "f" "r").
Definition de : ConfigDescription Z := mkConfig 0 0 (locale_of "d" "e").
Definition en_v18 : ConfigDescription Z := mkConfig 0 18 (locale_of "e" "n").
Definition en_v19 : ConfigDescription Z := mkConfig 0 19 (locale_of "e" "n").
Definition en_v23 : ConfigDescription Z := mkConfig 0 23 (locale_of "e" "n").

Definition package_attr : xml.Attribute :=
  xml.mkAttribute "" "package" "com.example" None None.

Definition minimal_manifest : xml.XmlResource :=
  xml.mkXmlResource (mkSource "AndroidManifest.xml" None)
    (Some (xml.ElementNode (xml.mkElement 2 "" "manifest" [package_attr] []))).

Definition manifest_without_package : xml.XmlResource :=
  xml.mkXmlResource (mkSource "AndroidManifest.xml" None)
    (Some (xml.ElementNode (xml.mkElement 2 "" "manifest" [] []))).

End Sample.

(** Vocabulary for the properties of [ExtractAppInfoFromBinaryManifest]: what
    an extractor makes of the attribute of that name, when the element has
    one. *)
Definition optional_attribute {A : Type} (el : xml.Element) (ns nm : string)
           (extract : xml.Attribute -> string -> option A * string) : option A :=
  match xml.FindAttribute el ns nm with
  | Some attr => fst (extract attr "")
  | None => None
  end.

(* ------------------------------------------------------------------------- *)
(** ** ParseConfigFilterParameters *)

(** Locale.h, not under src/: [LocaleValue::InitFromFilterString] fills a
    fresh [LocaleValue] from a filter string, or fails; [LocaleValue::WriteTo]
    writes the locale into a configuration description. *)
Class LocaleOps (Axes : Type) : Type := {
  LocaleValue : Type;
  InitFromFilterString : string -> option LocaleValue;
  WriteTo : LocaleValue -> ConfigDescription Axes -> ConfigDescription Axes
}.

(** filter/ConfigFilter.h, not under src/: an [AxisConfigFilter] is made
    empty and grows by [AddConfig]. *)
Class ConfigFilterOps (Axes : Type) : Type := {
  AxisConfigFilter : Type;
  make_filter : AxisConfigFilter;
  AddConfig : ConfigDescription Axes -> AxisConfigFilter -> AxisConfigFilter
}.

Section ConfigFilter.
Context {Axes : Type} `{ConfigOps Axes} `{LocaleOps Axes} `{ConfigFilterOps Axes}.

(** The inner loop, over [util::Tokenize(config_arg, ',')]. The local
    [ConfigDescription config] is default-constructed, which is the default
    configuration, before the locale is written to it. [None] is the
    [return {}] that leaves the whole function. *)
Fixpoint ParseConfigFilterParameters_tokens (tokens : list string)
         (diag : IDiagnostics) (filter : AxisConfigFilter) :
  option AxisConfigFilter * IDiagnostics :=
  match tokens with
  | [] => (Some filter, diag)
  | config_str :: rest =>
      match
        match InitFromFilterString config_str with
        | Some lv => Some (WriteTo lv DefaultConfig)
        | None => Parse config_str
        end
      with
      | None =>
          (None,
           diag_Error diag
             (mkDiagMessage None
                ("invalid config '" +:+ config_str +:+ "' for -c option")))
      | Some config =>
          if negb (density config =? 0) then
            ParseConfigFilterParameters_tokens rest
              (diag_Warn diag
                 (mkDiagMessage None
                    ("ignoring density '" +:+ toString config +:+ "' for -c option")))
              filter
          else
            ParseConfigFilterParameters_tokens rest diag (AddConfig config filter)
      end
  end.

(** The outer loop, over [args]. *)
Fixpoint ParseConfigFilterParameters_args (args : list string)
         (diag : IDiagnostics) (filter : AxisConfigFilter) :
  option AxisConfigFilter * IDiagnostics :=
  match args with
  | [] => (Some filter, diag)
  | config_arg :: rest =>
      match ParseConfigFilterParameters_tokens (Tokenize config_arg ","%char)
                                               diag filter with
      | (None, diag) => (None, diag)
      | (Some filter, diag) => ParseConfigFilterParameters_args rest diag filter
      end
  end.

(** [std::unique_ptr<IConfigFilter> ParseConfigFilterParameters(args, diag)]:
    the filter, or nothing, and the diagnostics. *)
Definition ParseConfigFilterParameters (args : list string) (diag : IDiagnostics) :
  option AxisConfigFilter * IDiagnostics :=
  ParseConfigFilterParameters_args args diag make_filter.

(** Vocabulary for the properties: the description a token stands for, the
    tokens of all arguments, the filter after a sequence of [AddConfig], and
    the warning about a description with a density. *)
Definition filter_token_config (config_str : string) :
  option (ConfigDescription Axes) :=
  match InitFromFilterString config_str with
  | Some lv => Some (WriteTo lv DefaultConfig)
  | None => Parse config_str
  end.

Definition filter_tokens (args : list string) : list string :=
  flat_map (fun config_arg => Tokenize config_arg ","%char) args.

Definition add_all (descriptors : list (ConfigDescription Axes))
           (filter : AxisConfigFilter) : AxisConfigFilter :=
  fold_left (fun f c => AddConfig c f) descriptors filter.

Definition density_warning (config : ConfigDescription Axes) : DiagMessageActual :=
  mkActual Warn
    (mkDiagMessage None
       ("ignoring density '" +:+ toString config +:+ "' for -c option")).

Definition has_density (config : ConfigDescription Axes) : bool :=
  negb (density config =? 0).

Definition without_density (config : ConfigDescription Axes) : bool :=
  density config =? 0.

(** [tokens] stand, in order, for [descriptors]. *)
Definition resolve_all (tokens : list string)
           (descriptors : list (ConfigDescription Axes)) : Prop :=
  Forall2 (fun token descriptor => filter_token_config token = Some descriptor)
          tokens descriptors.

Definition invalid_filter_config (config_str : string) : DiagMessageActual :=
  mkActual Error
    (mkDiagMessage None ("invalid config '" +:+ config_str +:+ "' for -c option")).

End ConfigFilter.

(** An instance of the locale and filter collaborators for the sample
    descriptors: a filter string of two lower-case letters is a locale, and a
    filter is the list of the descriptions added to it. *)
Module SampleFilter.

Definition init_locale (s : string) : option Z :=
  match s with
  | String l (String c EmptyString) =>
      if Sample.is_lower l && Sample.is_lower c then Some (Sample.locale_of l c)
      else None
  | _ => None
  end.

#[export] Instance locale_ops : LocaleOps Z := {
  LocaleValue := Z;
  InitFromFilterString := init_locale;
  WriteTo := fun lv c => mkConfig (density c) (sdkVersion c) lv
}.

#[export] Instance filter_ops : ConfigFilterOps Z := {
  AxisConfigFilter := list (ConfigDescription Z);
  make_filter := [];
  AddConfig := fun c f => f ++ [c]
}.

(** A manifest as the resource compiler leaves it, with compiled values. *)
Definition compiled_manifest : xml.XmlResource :=
  xml.mkXmlResource (mkSource "AndroidManifest.xml" None)
    (Some
       (xml.NamespaceNode
          (xml.mkNamespace "android" "http://schemas.android.com/apk/res/android"
             [xml.ElementNode
                (xml.mkElement 2 "" "manifest"
                   [xml.mkAttribute "" "package" "" None
                      (Some (Item_String "com.example"));
                    xml.mkAttribute "http://schemas.android.com/apk/res/android"
                      "versionCode" "" None
                      (Some (Item_BinaryPrimitive (mkRes_value 0x10 7)))]
                   [xml.ElementNode
                      (xml.mkElement 5 "" "uses-sdk"
                         [xml.mkAttribute
                            "http://schemas.android.com/apk/res/android"
                            "minSdkVersion" "twenty-one" None None]
                         [])])]))).

(** The same manifest with a minimum SDK version that parses, and a document
    whose root element is not a manifest. *)
Definition readable_manifest : xml.XmlResource :=
  xml.mkXmlResource (mkSource "AndroidManifest.xml" None)
    (Some
       (xml.ElementNode
          (xml.mkElement 2 "" "manifest"
             [xml.mkAttribute "" "package" "" None
                (Some (Item_String "com.example"));
              xml.mkAttribute "http://schemas.android.com/apk/res/android"
                "versionCode" "" None
                (Some (Item_BinaryPrimitive (mkRes_value 0x10 7)))]
             [xml.ElementNode
                (xml.mkElement 5 "" "uses-sdk"
                   [xml.mkAttribute "http://schemas.android.com/apk/res/android"
                      "minSdkVersion" "21" None None]
                   [])]))).

Definition layout_document : xml.XmlResource :=
  xml.mkXmlResource (mkSource "res/layout/main.xml" None)
    (Some (xml.ElementNode (xml.mkElement 1 "" "LinearLayout" [] []))).

End SampleFilter.

(* ------------------------------------------------------------------------- *)
(** ** Facts about [std::set] as an ascending list *)

Section SetFacts.
Context {Axes : Type} `{ConfigOps Axes}.

Lemma In_set_insert_inv (c x : ConfigDescription Axes) s :
  In x (set_insert c s) -> x = c \/ In x s.
Proof.
  induction s as [|y s IH]; simpl.
  - intros [->|[]]. now left.
  - destruct (config_lt c y).
    + simpl. intros [->|[->|Hin]]; auto.
    + destruct (config_lt y c); simpl; auto.
      intros [->|Hin]; auto. destruct (IH Hin); auto.
Qed.

Lemma In_set_insert_old (c x : ConfigDescription Axes) s :
  In x s -> In x (set_insert c s).
Proof.
  induction s as [|y s IH]; simpl; [tauto|].
  intros Hin. destruct (config_lt c y); [now right|].
  destruct (config_lt y c); [|exact Hin].
  destruct Hin as [->|Hin]; [now left|right; auto].
Qed.

Lemma length_set_insert_le (c : ConfigDescription Axes) s :
  (List.length (set_insert c s) <= S (List.length s))%nat.
Proof.
  induction s as [|y s IH]; simpl; [lia|].
  destruct (config_lt c y); simpl; [lia|].
  destruct (config_lt y c); simpl; lia.
Qed.

Section Ordered.
Context `{!ConfigOrder Axes}.

Lemma In_set_insert_new (c : ConfigDescription Axes) s : In c (set_insert c s).
Proof.
  induction s as [|y s IH]; simpl; [now left|].
  destruct (config_lt c y) eqn:Hcy; [now left|].
  destruct (config_lt y c) eqn:Hyc; [now right|].
  left. symmetry. now apply config_lt_total.
Qed.

Lemma In_set_insert_iff (c x : ConfigDescription Axes) s :
  In x (set_insert c s) <-> x = c \/ In x s.
Proof.
  split; [apply In_set_insert_inv|].
  intros [->|Hin]; [apply In_set_insert_new|now apply In_set_insert_old].
Qed.

Lemma set_insert_wf (c : ConfigDescription Axes) s :
  set_wf s -> set_wf (set_insert c s).
Proof.
  unfold set_wf. induction s as [|y s IH]; simpl; intros Hs.
  - constructor; constructor.
  - inversion Hs as [|? ? Hs' Hall]; subst.
    destruct (config_lt c y) eqn:Hcy.
    + constructor; [exact Hs|]. constructor; [exact Hcy|].
      rewrite Forall_forall in *. intros z Hz.
      eapply config_lt_trans; [exact Hcy|auto].
    + destruct (config_lt y c) eqn:Hyc; [|exact Hs].
      constructor; [auto|].
      rewrite Forall_forall in *. intros z Hz.
      destruct (In_set_insert_inv _ _ _ Hz) as [->|Hin]; auto.
Qed.

Lemma set_insert_present (c : ConfigDescription Axes) s :
  set_wf s -> In c s -> set_insert c s = s.
Proof.
  unfold set_wf. induction s as [|y s IH]; simpl; intros Hs Hin; [tauto|].
  inversion Hs as [|? ? Hs' Hall]; subst.
  rewrite Forall_forall in Hall.
  destruct Hin as [->|Hin].
  - now rewrite config_lt_irrefl.
  - pose proof (Hall _ Hin) as Hyc.
    destruct (config_lt c y) eqn:Hcy.
    + pose proof (config_lt_trans _ _ _ Hcy Hyc) as Hcc.
      rewrite config_lt_irrefl in Hcc. discriminate.
    + rewrite Hyc. f_equal. auto.
Qed.

Lemma set_wf_head_not_in (y : ConfigDescription Axes) s :
  set_wf (y :: s) -> ~ In y s.
Proof.
  intros Hs Hin. inversion Hs as [|? ? _ Hall]; subst.
  rewrite Forall_forall in Hall.
  pose proof (Hall _ Hin) as Hyy. rewrite config_lt_irrefl in Hyy. discriminate.
Qed.

(** Two sets with the same elements are the same list. *)
Lemma set_wf_ext (s1 s2 : list (ConfigDescription Axes)) :
  set_wf s1 -> set_wf s2 -> (forall x, In x s1 <-> In x s2) -> s1 = s2.
Proof.
  revert s2. induction s1 as [|a s1 IH]; intros [|b s2] H1 H2 Heq.
  - reflexivity.
  - exfalso. apply (proj2 (Heq b)). now left.
  - exfalso. apply (proj1 (Heq a)). now left.
  - pose proof (set_wf_head_not_in _ _ H1) as Ha.
    pose proof (set_wf_head_not_in _ _ H2) as Hb.
    inversion H1 as [|? ? H1' Hall1]; inversion H2 as [|? ? H2' Hall2]; subst.
    rewrite Forall_forall in Hall1, Hall2.
    assert (a = b) as ->.
    { destruct (proj1 (Heq a) (or_introl eq_refl)) as [E|Hin]; [now symmetry|].
      destruct (proj2 (Heq b) (or_introl eq_refl)) as [E|Hin']; [exact E|].
      pose proof (config_lt_trans _ _ _ (Hall1 _ Hin') (Hall2 _ Hin)) as Haa.
      rewrite config_lt_irrefl in Haa. discriminate. }
    f_equal. apply IH; auto.
    intros x. split; intros Hin.
    + destruct (proj1 (Heq x) (or_intror Hin)) as [E|]; [subst; tauto|assumption].
    + destruct (proj2 (Heq x) (or_intror Hin)) as [E|]; [subst; tauto|assumption].
Qed.

End Ordered.
End SetFacts.

(* ------------------------------------------------------------------------- *)
(** ** AdjustSplitConstraintsForMinSdk *)

Section AdjustFacts.
Context {Axes : Type} `{ConfigOps Axes}.

Lemma adjust_insert_eq min_sdk (acc : SplitConstraints Axes) config :
  adjust_insert min_sdk acc config = insert_config (adjust_config min_sdk config) acc.
Proof.
  unfold adjust_insert, adjust_config. now destruct (sdkVersion config <=? min_sdk).
Qed.

Lemma adjust_config_idempotent min_sdk (config : ConfigDescription Axes) :
  adjust_config min_sdk (adjust_config min_sdk config) = adjust_config min_sdk config.
Proof.
  unfold adjust_config.
  destruct (sdkVersion config <=? min_sdk) eqn:E; [|now rewrite E].
  simpl. now destruct (0 <=? min_sdk).
Qed.

(** The outer loop pushes one adjusted constraint per input constraint. *)
Lemma Adjust_push_back min_sdk (l acc : list (SplitConstraints Axes)) :
  fold_left
    (fun adjusted_constraints constraints =>
       adjusted_constraints ++ [adjust_constraints min_sdk constraints]) l acc
  = acc ++ map (adjust_constraints min_sdk) l.
Proof.
  revert acc. induction l as [|x l IH]; intros acc; simpl.
  - now rewrite app_nil_r.
  - rewrite IH, <- app_assoc. reflexivity.
Qed.

Lemma Adjust_map min_sdk (l : list (SplitConstraints Axes)) :
  AdjustSplitConstraintsForMinSdk min_sdk l = map (adjust_constraints min_sdk) l.
Proof. unfold AdjustSplitConstraintsForMinSdk. now rewrite Adjust_push_back. Qed.

Lemma length_adjust_fold_le min_sdk l (acc : SplitConstraints Axes) :
  (List.length (configs (fold_left (adjust_insert min_sdk) l acc))
   <= List.length l + List.length (configs acc))%nat.
Proof.
  revert acc. induction l as [|c l IH]; intros acc; simpl; [lia|].
  etransitivity; [apply IH|].
  rewrite adjust_insert_eq. simpl.
  pose proof (length_set_insert_le (adjust_config min_sdk c) (configs acc)). lia.
Qed.

Section Ordered.
Context `{!ConfigOrder Axes}.

Lemma In_adjust_fold min_sdk l (acc : SplitConstraints Axes) x :
  In x (configs (fold_left (adjust_insert min_sdk) l acc)) <->
  In x (configs acc) \/ exists c, In c l /\ x = adjust_config min_sdk c.
Proof.
  revert acc. induction l as [|c l IH]; intros acc; simpl.
  - split; [auto|]. intros [Hin|[c [[] _]]]. exact Hin.
  - rewrite IH, adjust_insert_eq. simpl. rewrite In_set_insert_iff. split.
    + intros [[->|Hin]|[c' [Hc' ->]]]; eauto.
    + intros [Hin|[c' [[->|Hc'] ->]]]; eauto.
Qed.

Lemma wf_adjust_fold min_sdk l (acc : SplitConstraints Axes) :
  set_wf (configs acc) -> set_wf (configs (fold_left (adjust_insert min_sdk) l acc)).
Proof.
  revert acc. induction l as [|c l IH]; intros acc Hacc; simpl; [exact Hacc|].
  apply IH. rewrite adjust_insert_eq. simpl. now apply set_insert_wf.
Qed.

Lemma wf_adjust_constraints min_sdk (constraints : SplitConstraints Axes) :
  set_wf (configs (adjust_constraints min_sdk constraints)).
Proof. apply wf_adjust_fold. constructor. Qed.

(** A well-formed set holds every descriptor once. *)
Lemma adjusted_no_duplicates min_sdk (constraints : SplitConstraints Axes) :
  NoDup (configs (adjust_constraints min_sdk constraints)).
Proof.
  pose proof (wf_adjust_constraints min_sdk constraints) as Hwf.
  induction (configs (adjust_constraints min_sdk constraints)) as [|y s IH];
    constructor.
  - now apply set_wf_head_not_in.
  - apply IH. now inversion Hwf.
Qed.

Lemma In_adjust_constraints min_sdk (constraints : SplitConstraints Axes) x :
  In x (configs (adjust_constraints min_sdk constraints)) <->
  exists c, In c (configs constraints) /\ x = adjust_config min_sdk c.
Proof.
  unfold adjust_constraints. rewrite In_adjust_fold. simpl. tauto.
Qed.

(** An element whose adjusted form is already in the set adds nothing. *)
Lemma length_adjust_fold_present min_sdk l (acc : SplitConstraints Axes) a :
  set_wf (configs acc) -> In a l -> In (adjust_config min_sdk a) (configs acc) ->
  (List.length (configs (fold_left (adjust_insert min_sdk) l acc))
   < List.length l + List.length (configs acc))%nat.
Proof.
  revert acc. induction l as [|c l IH]; intros acc Hwf Hin Hacc; simpl; [destruct Hin|].
  destruct Hin as [->|Hin].
  - rewrite adjust_insert_eq. unfold insert_config.
    rewrite set_insert_present by assumption.
    pose proof (length_adjust_fold_le min_sdk l (mkSplitConstraints (configs acc))).
    simpl in *. lia.
  - pose proof (IH (adjust_insert min_sdk acc c)) as IH'.
    rewrite adjust_insert_eq in *. simpl in IH'.
    pose proof (length_set_insert_le (adjust_config min_sdk c) (configs acc)).
    specialize (IH' (set_insert_wf _ _ Hwf) Hin (In_set_insert_old _ _ _ Hacc)). lia.
Qed.

(** Two different elements with the same adjusted form collapse into one. *)
Lemma length_adjust_fold_collapse min_sdk l (acc : SplitConstraints Axes) a b :
  set_wf (configs acc) -> In a l -> In b l -> a <> b ->
  adjust_config min_sdk a = adjust_config min_sdk b ->
  (List.length (configs (fold_left (adjust_insert min_sdk) l acc))
   < List.length l + List.length (configs acc))%nat.
Proof.
  revert acc. induction l as [|c l IH]; intros acc Hwf Ha Hb Hab Heq; simpl; [destruct Ha|].
  pose proof (length_set_insert_le (adjust_config min_sdk c) (configs acc)) as Hle.
  assert (Hwf' : set_wf (configs (adjust_insert min_sdk acc c))).
  { rewrite adjust_insert_eq. simpl. now apply set_insert_wf. }
  assert (Hlen : (List.length (configs (adjust_insert min_sdk acc c))
                  <= S (List.length (configs acc)))%nat).
  { rewrite adjust_insert_eq. exact Hle. }
  assert (Hnew : In (adjust_config min_sdk c) (configs (adjust_insert min_sdk acc c))).
  { rewrite adjust_insert_eq. simpl. apply In_set_insert_new. }
  destruct Ha as [->|Ha], Hb as [->|Hb].
  - congruence.
  - rewrite Heq in Hnew.
    pose proof (length_adjust_fold_present min_sdk l _ b Hwf' Hb Hnew). lia.
  - rewrite <- Heq in Hnew.
    pose proof (length_adjust_fold_present min_sdk l _ a Hwf' Ha Hnew). lia.
  - pose proof (IH _ Hwf' Ha Hb Hab Heq). lia.
Qed.

End Ordered.
End AdjustFacts.

Section AdjustClaims.
Context {Axes : Type} `{ConfigOps Axes} `{!ConfigOrder Axes}.

(** C3. For every minimum SDK value and every sequence of SplitConstraints,
    [AdjustSplitConstraintsForMinSdk] returns a sequence of the same length
    whose i-th constraint is made from the i-th input constraint: its set
    holds, for every descriptor of the input set, the copy without SDK version
    when the descriptor's SDK version is at most the minimum, and the
    descriptor itself otherwise, and nothing else. The input is an argument by
    value of the embedding and is returned nowhere, so it is not changed. For
    [min_sdk = 21] a descriptor with SDK 18 is present with its SDK version
    cleared (and the other fields as they were), a descriptor with SDK 23 is
    present unchanged. *)
Theorem adjust_strips_sdk_up_to_min (min_sdk : Z)
        (split_constraints : list (SplitConstraints Axes)) :
  let adjusted := AdjustSplitConstraintsForMinSdk min_sdk split_constraints in
  List.length adjusted = List.length split_constraints /\
  (forall i constraints,
      nth_error split_constraints i = Some constraints ->
      exists constraint,
        nth_error adjusted i = Some constraint /\
        forall c,
          In c (configs constraint) <->
          exists config,
            In config (configs constraints) /\
            c = if sdkVersion config <=? min_sdk
                then CopyWithoutSdkVersion config else config) /\
  (min_sdk = 21 ->
   forall i constraints config,
     nth_error split_constraints i = Some constraints ->
     In config (configs constraints) ->
     exists constraint,
       nth_error adjusted i = Some constraint /\
       (sdkVersion config = 18 ->
        In (mkConfig (density config) 0 (otherAxes config)) (configs constraint)) /\
       (sdkVersion config = 23 -> In config (configs constraint))).
Proof.
  intros adjusted. subst adjusted. rewrite Adjust_map.
  split; [apply length_map|]. split.
  - intros i constraints Hi.
    exists (adjust_constraints min_sdk constraints). split.
    + now rewrite nth_error_map, Hi.
    + intros c. apply In_adjust_constraints.
  - intros -> i constraints config Hi Hin.
    exists (adjust_constraints 21 constraints). split; [|split].
    + now rewrite nth_error_map, Hi.
    + intros Hsdk. apply In_adjust_constraints. exists config. split; [exact Hin|].
      unfold adjust_config. now rewrite Hsdk.
    + intros Hsdk. apply In_adjust_constraints. exists config. split; [exact Hin|].
      unfold adjust_config. now rewrite Hsdk.
Qed.

(** C4. [AdjustSplitConstraintsForMinSdk] is idempotent: adjusting an adjusted
    sequence again with the same minimum SDK yields the same sequence. *)
Theorem adjust_idempotent (min_sdk : Z)
        (split_constraints : list (SplitConstraints Axes)) :
  AdjustSplitConstraintsForMinSdk min_sdk
    (AdjustSplitConstraintsForMinSdk min_sdk split_constraints)
  = AdjustSplitConstraintsForMinSdk min_sdk split_constraints.
Proof.
  rewrite !Adjust_map, map_map. apply map_ext. intros constraints.
  assert (E : configs (adjust_constraints min_sdk (adjust_constraints min_sdk constraints))
              = configs (adjust_constraints min_sdk constraints)).
  { apply set_wf_ext; try apply wf_adjust_constraints.
    intros x. rewrite !In_adjust_constraints. split.
    - intros [c [Hc ->]]. apply In_adjust_constraints in Hc.
      destruct Hc as [c0 [Hc0 ->]]. exists c0.
      now rewrite adjust_config_idempotent.
    - intros [c0 [Hc0 ->]]. exists (adjust_config min_sdk c0). split.
      + apply In_adjust_constraints. now exists c0.
      + now rewrite adjust_config_idempotent. }
  destruct (adjust_constraints min_sdk (adjust_constraints min_sdk constraints)),
    (adjust_constraints min_sdk constraints).
  simpl in E. now rewrite E.
Qed.

(** C9. The constraint that [AdjustSplitConstraintsForMinSdk] makes from an
    input constraint holds exactly the adjusted descriptors of the input (the
    copy without SDK version of a descriptor whose SDK version is at most the
    minimum, the descriptor itself otherwise), each once. It has at most as
    many descriptors as the input. When two descriptors of the input differ
    in their SDK version only and both have an SDK version of at most the
    minimum, stripping maps them to the same descriptor, that descriptor is
    in the result (once), and the result has strictly fewer descriptors than
    the input. *)
Theorem adjust_never_grows_and_collapses (min_sdk : Z)
        (split_constraints : list (SplitConstraints Axes)) :
  forall i constraints,
    nth_error split_constraints i = Some constraints ->
    exists constraint,
      nth_error (AdjustSplitConstraintsForMinSdk min_sdk split_constraints) i
      = Some constraint /\
      (forall c,
          In c (configs constraint) <->
          exists config,
            In config (configs constraints) /\
            c = if sdkVersion config <=? min_sdk
                then CopyWithoutSdkVersion config else config) /\
      NoDup (configs constraint) /\
      (List.length (configs constraint) <= List.length (configs constraints))%nat /\
      (forall a b,
          In a (configs constraints) -> In b (configs constraints) ->
          a <> b ->
          density a = density b -> otherAxes a = otherAxes b ->
          sdkVersion a <= min_sdk -> sdkVersion b <= min_sdk ->
          CopyWithoutSdkVersion a = CopyWithoutSdkVersion b /\
          In (CopyWithoutSdkVersion a) (configs constraint) /\
          (exists before after,
              configs constraint = before ++ CopyWithoutSdkVersion a :: after /\
              ~ In (CopyWithoutSdkVersion a) before /\
              ~ In (CopyWithoutSdkVersion a) after) /\
          (List.length (configs constraint) < List.length (configs constraints))%nat).
Proof.
  intros i constraints Hi. rewrite Adjust_map.
  exists (adjust_constraints min_sdk constraints).
  split; [|split; [|split; [|split]]].
  - now rewrite nth_error_map, Hi.
  - intros c. apply In_adjust_constraints.
  - apply adjusted_no_duplicates.
  - pose proof (length_adjust_fold_le min_sdk (configs constraints) empty_constraints).
    unfold adjust_constraints. simpl in *. lia.
  - intros a b Ha Hb Hab Hd Ho Hsa Hsb.
    assert (Hsame : CopyWithoutSdkVersion a = CopyWithoutSdkVersion b).
    { unfold CopyWithoutSdkVersion, set_sdkVersion. now rewrite Hd, Ho. }
    assert (Hadj : forall x : ConfigDescription Axes,
               sdkVersion x <= min_sdk ->
               adjust_config min_sdk x = CopyWithoutSdkVersion x).
    { intros x Hx. unfold adjust_config. apply Z.leb_le in Hx. now rewrite Hx. }
    assert (Hin : In (CopyWithoutSdkVersion a)
                     (configs (adjust_constraints min_sdk constraints))).
    { apply In_adjust_constraints. exists a. split; [exact Ha|].
      symmetry. now apply Hadj. }
    split; [exact Hsame|]. split; [exact Hin|]. split.
    + apply in_split in Hin. destruct Hin as (l1 & l2 & E).
      pose proof (adjusted_no_duplicates min_sdk constraints) as Hnd.
      rewrite E in Hnd. apply NoDup_remove_2 in Hnd.
      exists l1, l2. split; [exact E|]. split.
      * intros Hl1. apply Hnd. apply in_or_app. now left.
      * intros Hl2. apply Hnd. apply in_or_app. now right.
    + pose proof (length_adjust_fold_collapse min_sdk (configs constraints)
                    empty_constraints a b) as Hlt.
      unfold adjust_constraints. simpl in Hlt.
      rewrite Nat.add_0_r in Hlt. apply Hlt; auto; [constructor|].
      now rewrite !Hadj by assumption.
Qed.

End AdjustClaims.

(* ------------------------------------------------------------------------- *)
(** ** ParseTargetDensityParameter *)

Section DensityClaims.
Context {Axes : Type} `{ConfigOps Axes}.

(** C6. For every qualifier string: when it does not parse as a configuration
    description, [ParseTargetDensityParameter] fails with the invalid-density
    error; when it parses, the SDK version is cleared first (the SDK version
    the parser gave does not occur in what decides the outcome), and the
    function fails with the density-only error when the difference from the
    default configuration is not exactly [CONFIG_DENSITY]; otherwise it
    returns the density of the parsed description and reports nothing. *)
Theorem density_parameter_outcomes (arg : string) (diag : IDiagnostics) :
  (Parse arg = None ->
   ParseTargetDensityParameter arg diag =
   (None,
    diag ++ [mkActual Error
               (mkDiagMessage None
                  ("invalid density '" +:+ arg +:+ "' for --preferred-density option"))]))
  /\
  (forall parsed,
      Parse arg = Some parsed ->
      diff (mkConfig (density parsed) 0 (otherAxes parsed)) DefaultConfig
      <> CONFIG_DENSITY ->
      ParseTargetDensityParameter arg diag =
      (None,
       diag ++ [mkActual Error
                  (mkDiagMessage None
                     ("invalid preferred density '" +:+ arg +:+ "'. "
                      +:+ "Preferred density must only be a density value"))]))
  /\
  (forall parsed,
      Parse arg = Some parsed ->
      diff (mkConfig (density parsed) 0 (otherAxes parsed)) DefaultConfig
      = CONFIG_DENSITY ->
      ParseTargetDensityParameter arg diag = (Some (density parsed), diag)).
Proof.
  unfold ParseTargetDensityParameter, diag_Error, set_sdkVersion.
  split; [|split].
  - intros ->. reflexivity.
  - intros parsed -> Hdiff.
    apply Z.eqb_neq in Hdiff. now rewrite Hdiff.
  - intros parsed -> Hdiff.
    apply Z.eqb_eq in Hdiff. now rewrite Hdiff.
Qed.

End DensityClaims.

(* ------------------------------------------------------------------------- *)
(** ** ParseSplitParameter *)

Section SplitParameterFacts.
Context {Axes : Type} `{ConfigOps Axes} `{Platform}.

Lemma configs_loop_success tokens descriptors arg diag path split :
  parse_all tokens descriptors ->
  ParseSplitParameter_configs tokens arg diag path split
  = mkSplitResult true diag path (insert_all descriptors split).
Proof.
  intros Hall. revert split.
  induction Hall as [|token d tokens descriptors Htok _ IH]; intros split; simpl.
  - reflexivity.
  - rewrite Htok. apply IH.
Qed.

Lemma configs_loop_failure pre bad post descriptors arg diag path split :
  parse_all pre descriptors -> Parse bad = None ->
  ParseSplitParameter_configs (pre ++ bad :: post) arg diag path split
  = mkSplitResult false
      (diag_Error diag
         (mkDiagMessage None
            ("invalid config '" +:+ bad +:+ "' in split parameter '" +:+ arg +:+ "'")))
      path (insert_all descriptors split).
Proof.
  intros Hall Hbad. revert split.
  induction Hall as [|token d tokens descriptors Htok _ IH]; intros split; simpl.
  - now rewrite Hbad.
  - rewrite Htok. apply IH.
Qed.

(** When some token does not parse, there is a first one. *)
Lemma first_unparsable_token (tokens : list string) :
  (exists token, In token tokens /\ Parse token = None) ->
  exists pre bad post (descriptors : list (ConfigDescription Axes)),
    tokens = pre ++ bad :: post /\ parse_all pre descriptors /\ Parse bad = None.
Proof.
  induction tokens as [|t tokens IH]; intros [token [Hin Hnone]]; [destruct Hin|].
  destruct (Parse t) as [d|] eqn:Ht.
  - destruct Hin as [->|Hin]; [congruence|].
    destruct IH as (pre & bad & post & descriptors & -> & Hall & Hbad); [eauto|].
    exists (t :: pre), bad, post, (d :: descriptors).
    split; [reflexivity|]. split; [now constructor|exact Hbad].
  - exists [], t, tokens, []. split; [reflexivity|]. split; [constructor|exact Ht].
Qed.

Lemma ParseSplitParameter_two_parts arg diag path0 split0 p c :
  Split arg sSeparator = [p; c] ->
  ParseSplitParameter arg diag path0 split0
  = ParseSplitParameter_configs (Tokenize c ","%char) arg diag p split0.
Proof. unfold ParseSplitParameter. intros ->. reflexivity. Qed.

(** Under [_WIN32] the separator is [';'], otherwise [':']. *)
Lemma ParseSplitParameter_win32_one_part arg diag path0
      (split0 : SplitConstraints Axes) :
  WIN32 = true -> List.length (Split arg ";"%char) <> 2%nat ->
  split_ok (ParseSplitParameter arg diag path0 split0) = false.
Proof.
  unfold ParseSplitParameter, sSeparator. intros -> Hlen.
  apply Nat.eqb_neq in Hlen. now rewrite Hlen.
Qed.

Lemma ParseSplitParameter_colon_two_parts arg diag path0
      (split0 : SplitConstraints Axes) p c :
  WIN32 = false -> Split arg ":"%char = [p; c] ->
  ParseSplitParameter arg diag path0 split0
  = ParseSplitParameter_configs (Tokenize c ","%char) arg diag p split0.
Proof.
  unfold ParseSplitParameter, sSeparator. intros -> ->. reflexivity.
Qed.

Lemma ParseSplitParameter_wrong_count arg diag path0 split0 :
  List.length (Split arg sSeparator) <> 2%nat ->
  ParseSplitParameter arg diag path0 split0
  = mkSplitResult false
      (diag ++
       [mkActual Error
          (mkDiagMessage None ("invalid split parameter '" +:+ arg +:+ "'"));
        mkActual Note
          (mkDiagMessage None
             ("should be --split path/to/output.apk" +:+ String sSeparator ""
              +:+ "<config>[,<config>...]."))])
      path0 split0.
Proof.
  unfold ParseSplitParameter. intros Hlen.
  apply Nat.eqb_neq in Hlen. rewrite Hlen. simpl.
  unfold diag_Note, diag_Error. now rewrite <- app_assoc.
Qed.

Section Ordered.
Context `{!ConfigOrder Axes}.

Lemma In_insert_all descriptors (split : SplitConstraints Axes) x :
  In x (configs (insert_all descriptors split)) <->
  In x (configs split) \/ In x descriptors.
Proof.
  unfold insert_all. revert split.
  induction descriptors as [|d ds IH]; intros split; simpl; [tauto|].
  rewrite IH. simpl. rewrite In_set_insert_iff. intuition.
Qed.

Lemma wf_insert_all descriptors (split : SplitConstraints Axes) :
  set_wf (configs split) -> set_wf (configs (insert_all descriptors split)).
Proof.
  unfold insert_all. revert split.
  induction descriptors as [|d ds IH]; intros split Hwf; simpl; [exact Hwf|].
  apply IH. simpl. now apply set_insert_wf.
Qed.

Lemma set_wf_NoDup (s : list (ConfigDescription Axes)) : set_wf s -> NoDup s.
Proof.
  induction s as [|y s IH]; intros Hwf; constructor.
  - now apply set_wf_head_not_in.
  - apply IH. now inversion Hwf.
Qed.

End Ordered.
End SplitParameterFacts.

Section SplitParameterClaims.
Context {Axes : Type} `{ConfigOps Axes} `{Platform} `{!ConfigOrder Axes}.

(** C7. [ParseSplitParameter] cuts its argument at the separator. When the
    number of parts is not two (as for ["bad"]) it returns false, reports the
    error and the usage note, and leaves the out-parameters alone. With two
    parts whose second part's tokens all parse, it returns true, reports
    nothing, sets the path to the first part and inserts the parsed
    descriptors into the constraint set: the set then holds what it held
    before and the descriptors, each once (on a set that was empty, exactly
    the descriptors). When some token does not parse, the function returns
    false and the error names the first such token (the one all of whose
    predecessors parse) and the whole argument.
    For ["out.apk:en,fr"] and a fresh set, a call that succeeds leaves the
    path ["out.apk"] and a set that holds exactly the descriptors of ["en"]
    and ["fr"]; for ["out.apk:en,en"] the set holds the descriptor of ["en"]
    once. With the [':'] separator these calls do succeed when ["en"] and
    ["fr"] parse (under [_WIN32] the separator is [';'] and they fail on the
    part count). *)
Theorem split_parameter_outcomes (arg : string) (diag : IDiagnostics)
        (path0 : string) (split0 : SplitConstraints Axes) :
  (List.length (Split arg sSeparator) <> 2%nat ->
   ParseSplitParameter arg diag path0 split0
   = mkSplitResult false
       (diag ++
        [mkActual Error
           (mkDiagMessage None ("invalid split parameter '" +:+ arg +:+ "'"));
         mkActual Note
           (mkDiagMessage None
              ("should be --split path/to/output.apk" +:+ String sSeparator ""
               +:+ "<config>[,<config>...]."))])
       path0 split0)
  /\
  (forall p c descriptors,
      Split arg sSeparator = [p; c] ->
      parse_all (Tokenize c ","%char) descriptors ->
      let r := ParseSplitParameter arg diag path0 split0 in
      split_ok r = true /\ split_diag r = diag /\ out_path r = p /\
      out_split r = insert_all descriptors split0 /\
      (forall x, In x (configs (out_split r)) <->
                 In x (configs split0) \/ In x descriptors) /\
      (set_wf (configs split0) -> NoDup (configs (out_split r))))
  /\
  (forall p c,
      Split arg sSeparator = [p; c] ->
      (exists token, In token (Tokenize c ","%char) /\ Parse token = None) ->
      let r := ParseSplitParameter arg diag path0 split0 in
      split_ok r = false /\
      exists pre bad post descriptors,
        Tokenize c ","%char = pre ++ bad :: post /\
        parse_all pre descriptors /\
        In bad (Tokenize c ","%char) /\ Parse bad = None /\
        split_diag r
        = diag ++
          [mkActual Error
             (mkDiagMessage None
                ("invalid config '" +:+ bad +:+ "' in split parameter '"
                 +:+ arg +:+ "'"))])
  /\
  (split_ok (ParseSplitParameter "bad" diag path0 split0) = false /\
   let r := ParseSplitParameter "out.apk:en,fr" diag path0 empty_constraints in
   let r' := ParseSplitParameter "out.apk:en,en" diag path0 empty_constraints in
   (split_ok r = true ->
    exists en fr,
      Parse "en" = Some en /\ Parse "fr" = Some fr /\
      out_path r = "out.apk" /\
      forall x, In x (configs (out_split r)) <-> x = en \/ x = fr) /\
   (split_ok r' = true ->
    exists en, Parse "en" = Some en /\ configs (out_split r') = [en]) /\
   (WIN32 = false ->
    forall en fr,
      Parse "en" = Some en -> Parse "fr" = Some fr ->
      split_ok r = true /\ split_ok r' = true)).
Proof.
  split; [apply ParseSplitParameter_wrong_count|]. split; [|split].
  - intros p c descriptors Hparts Hall r. subst r.
    rewrite (ParseSplitParameter_two_parts _ _ _ _ _ _ Hparts).
    rewrite (configs_loop_success _ _ _ _ _ _ Hall). simpl.
    repeat split; try apply In_insert_all.
    intros Hwf. apply set_wf_NoDup. now apply wf_insert_all.
  - intros p c Hparts Hsome r. subst r.
    destruct (first_unparsable_token _ Hsome)
      as (pre & bad & post & descriptors & Htok & Hall & Hbad).
    rewrite (ParseSplitParameter_two_parts _ _ _ _ _ _ Hparts), Htok.
    rewrite (configs_loop_failure _ _ _ _ _ _ _ _ Hall Hbad). simpl.
    split; [reflexivity|]. exists pre, bad, post, descriptors.
    split; [reflexivity|]. split; [exact Hall|].
    split; [apply in_or_app; right; now left|]. split; [exact Hbad|reflexivity].
  - split.
    + rewrite ParseSplitParameter_wrong_count; [reflexivity|].
      unfold sSeparator. destruct WIN32; simpl; discriminate.
    + intros r r'. subst r r'.
      destruct WIN32 eqn:Hwin.
      * rewrite !(ParseSplitParameter_win32_one_part _ _ _ _ Hwin)
          by (simpl; discriminate).
        repeat split; discriminate.
      * rewrite (ParseSplitParameter_colon_two_parts _ _ _ _ "out.apk" "en,fr" Hwin)
          by reflexivity.
        rewrite (ParseSplitParameter_colon_two_parts _ _ _ _ "out.apk" "en,en" Hwin)
          by reflexivity.
        change (Tokenize "en,fr" ","%char) with ["en"; "fr"].
        change (Tokenize "en,en" ","%char) with ["en"; "en"].
        cbn [ParseSplitParameter_configs].
        destruct (Parse "en") as [en|] eqn:Hen; [|repeat split; discriminate].
        split; [|split].
        -- destruct (Parse "fr") as [fr|] eqn:Hfr; [|discriminate].
           intros _. exists en, fr. do 3 (split; [reflexivity|]).
           intros x. change (In x (configs (insert_all [en; fr] empty_constraints))
                             <-> x = en \/ x = fr).
           rewrite In_insert_all. simpl. intuition congruence.
        -- intros _. exists en. split; [reflexivity|].
           simpl. now rewrite config_lt_irrefl.
        -- intros _ en' fr' _ Hfr. rewrite Hfr. split; reflexivity.
Qed.

(** C10. [ParseSplitParameter] is not atomic: when a token of the second part
    does not parse, the function returns false, and yet the path out-parameter
    holds the first part of the argument and the set out-parameter has
    received the descriptors of the tokens before the offending one: it holds
    what it held before and those descriptors (on a set that was empty,
    exactly those descriptors). *)
Theorem split_parameter_failure_keeps_writes (arg : string) (diag : IDiagnostics)
        (path0 : string) (split0 : SplitConstraints Axes)
        (p c : string) (pre : list string) (bad : string) (post : list string)
        (descriptors : list (ConfigDescription Axes)) :
  Split arg sSeparator = [p; c] ->
  Tokenize c ","%char = pre ++ bad :: post ->
  parse_all pre descriptors ->
  Parse bad = None ->
  let r := ParseSplitParameter arg diag path0 split0 in
  split_ok r = false /\
  out_path r = p /\
  out_split r = insert_all descriptors split0 /\
  (forall x, In x (configs (out_split r)) <->
             In x (configs split0) \/ In x descriptors) /\
  (configs split0 = [] ->
   forall x, In x (configs (out_split r)) <-> In x descriptors).
Proof.
  intros Hparts Htok Hall Hbad r. subst r.
  rewrite (ParseSplitParameter_two_parts _ _ _ _ _ _ Hparts), Htok.
  rewrite (configs_loop_failure _ _ _ _ _ _ _ _ Hall Hbad). simpl.
  do 3 (split; [reflexivity|]). split.
  - intros x. apply In_insert_all.
  - intros Hempty x. rewrite In_insert_all, Hempty. simpl. tauto.
Qed.

End SplitParameterClaims.

(* ------------------------------------------------------------------------- *)
(** ** The attribute value extractors *)

Section ExtractorClaims.
Context `{Platform} `{ResourceUtils}.

(** C1. Each of the three extractors uses the compiled value whenever the
    attribute has one and does not read the raw text then. The string
    extractor returns a non-empty compiled string, fails with "compiled value
    is an empty string" on an empty one and with "compiled value is not a
    string" on a compiled value of another kind. The integer extractor returns
    the data of a compiled primitive with an integer tag and fails with
    "compiled value is not an integer" on anything else. The SDK-version
    extractor returns the data of such a primitive or the SDK version a
    compiled string parses to, and fails with "compiled value is not an
    integer or string" on a compiled value of another kind. Only without a
    compiled value do they read the raw text, failing with "value is an empty
    string", "'<text>' is not a valid integer" and "'<text>' is not a valid
    SDK version" when the text is empty or does not parse. *)
Theorem extractors_compiled_first (attr : xml.Attribute) (out_error : string) :
  (forall compiled,
      xml.compiled_value attr = Some compiled ->
      (forall text,
          ExtractCompiledString (xml.set_value text attr) out_error
          = ExtractCompiledString attr out_error /\
          ExtractCompiledInt (xml.set_value text attr) out_error
          = ExtractCompiledInt attr out_error /\
          ExtractSdkVersion (xml.set_value text attr) out_error
          = ExtractSdkVersion attr out_error) /\
      (forall s, compiled = Item_String s -> s <> "" ->
                 ExtractCompiledString attr out_error = (Some s, out_error)) /\
      (compiled = Item_String "" ->
       ExtractCompiledString attr out_error
       = (None, "compiled value is an empty string")) /\
      (ValueCast_String compiled = None ->
       ExtractCompiledString attr out_error
       = (None, "compiled value is not a string")) /\
      (forall v, compiled = Item_BinaryPrimitive v -> is_int_type v = true ->
                 ExtractCompiledInt attr out_error = (Some (data v), out_error) /\
                 ExtractSdkVersion attr out_error
                 = (Some (uint32_to_int (data v)), out_error)) /\
      (is_compiled_int compiled = false ->
       ExtractCompiledInt attr out_error
       = (None, "compiled value is not an integer")) /\
      (forall s sdk_version,
          compiled = Item_String s -> ParseSdkVersion s = Some sdk_version ->
          ExtractSdkVersion attr out_error = (Some sdk_version, out_error)) /\
      (is_compiled_int compiled = false -> ValueCast_String compiled = None ->
       ExtractSdkVersion attr out_error
       = (None, "compiled value is not an integer or string")))
  /\
  (xml.compiled_value attr = None ->
   ExtractCompiledString attr out_error
   = (if String.eqb (xml.value attr) "" then (None, "value is an empty string")
      else (Some (xml.value attr), out_error)) /\
   ExtractCompiledInt attr out_error
   = match ParseInt (xml.value attr) with
     | Some integer => (Some integer, out_error)
     | None => (None, "'" +:+ xml.value attr +:+ "' is not a valid integer")
     end /\
   ExtractSdkVersion attr out_error
   = match ParseSdkVersion (xml.value attr) with
     | Some sdk_version => (Some sdk_version, out_error)
     | None => (None, "'" +:+ xml.value attr +:+ "' is not a valid SDK version")
     end).
Proof.
  unfold ExtractCompiledString, ExtractCompiledInt, ExtractSdkVersion.
  split.
  - intros compiled Hc. simpl. rewrite Hc.
    split; [intros text; repeat split|].
    split; [|split; [|split; [|split; [|split; [|split]]]]].
    + intros s -> Hs. simpl.
      apply String.eqb_neq in Hs. now rewrite Hs.
    + intros ->. reflexivity.
    + intros Hcast. now rewrite Hcast.
    + intros v -> Hint. simpl. now rewrite Hint.
    + intros Hint. destruct compiled as [s|v|]; simpl in *; try reflexivity.
      now rewrite Hint.
    + intros s sdk_version -> Hsdk. simpl. now rewrite Hsdk.
    + intros Hint Hcast. destruct compiled as [s|v|]; simpl in *;
        try discriminate; try reflexivity.
      now rewrite Hint.
  - intros Hc. rewrite Hc.
    destruct (String.eqb (xml.value attr) ""); simpl; repeat split.
Qed.

End ExtractorClaims.

(* ------------------------------------------------------------------------- *)
(** ** ExtractAppInfoFromBinaryManifest *)

Section AppInfoClaims.
Context `{Platform} `{ResourceUtils}.

Lemma FindChild_no_elements (el : xml.Element) ns nm :
  (forall child, ~ In (xml.ElementNode child) (xml.children el)) ->
  xml.FindChild el ns nm = None.
Proof.
  intros Hnone. unfold xml.FindChild.
  destruct (find (xml.element_matches ns nm) (xml.children el)) as [n|] eqn:Hfind;
    [|reflexivity].
  apply find_some in Hfind. destruct Hfind as [Hin _].
  destruct n as [ns'|child|text]; try reflexivity.
  now apply Hnone in Hin.
Qed.

(** C2. For every manifest document whose root element is [manifest] with an
    empty namespace, without child elements, and whose only attribute is the
    unqualified package="com.example" (as text, or as text with the compiled
    string "com.example"), [ExtractAppInfoFromBinaryManifest] succeeds,
    reports nothing, and returns the package "com.example" with no version
    code, no revision code, no split name and no minimum SDK version: the
    minimum SDK version is left at its default, which reads as 0. *)
Theorem minimal_manifest_app_info (xml_res : xml.XmlResource) (diag : IDiagnostics)
        (line_number : Z) (compiled_attribute : option xml.AaptAttribute)
        (compiled_value : option Item) (children : list xml.Node) :
  xml.FindRootElement (xml.root xml_res)
  = Some (xml.mkElement line_number "" "manifest"
            [xml.mkAttribute "" "package" "com.example" compiled_attribute
                             compiled_value]
            children) ->
  compiled_value = None \/ compiled_value = Some (Item_String "com.example") ->
  (forall child, ~ In (xml.ElementNode child) children) ->
  exists app_info,
    ExtractAppInfoFromBinaryManifest xml_res diag = (Some app_info, diag) /\
    app_info = {| package := "com.example"; min_sdk_version := None;
                  version_code := None; revision_code := None;
                  split_name := None |} /\
    min_sdk_version_or_default app_info = 0.
Proof.
  intros Hroot Hcompiled Hchildren.
  eexists. split; [|split; reflexivity].
  unfold ExtractAppInfoFromBinaryManifest. rewrite Hroot.
  rewrite FindChild_no_elements by exact Hchildren.
  unfold xml.FindAttribute, xml.attribute_matches. simpl.
  rewrite !Bool.andb_false_r.
  destruct Hcompiled as [->| ->]; reflexivity.
Qed.

(** C8, as the code has it. When the root element is [manifest] with an
    empty namespace and has no [package] attribute,
    [ExtractAppInfoFromBinaryManifest] fails and reports one error, "<manifest>
    must have a 'package' attribute", anchored at the source of the document
    as it is: the line number of the root element is not attached. *)
Theorem missing_package_reported_at_document (xml_res : xml.XmlResource)
        (diag : IDiagnostics) (manifest_el : xml.Element) :
  xml.FindRootElement (xml.root xml_res) = Some manifest_el ->
  xml.el_namespace_uri manifest_el = "" ->
  xml.el_name manifest_el = "manifest" ->
  xml.FindAttribute manifest_el "" "package" = None ->
  ExtractAppInfoFromBinaryManifest xml_res diag
  = (None,
     diag ++ [mkActual Error
                (mkDiagMessage (Some (xml.file_source xml_res))
                               "<manifest> must have a 'package' attribute")]).
Proof.
  intros Hroot Hns Hname Hattr.
  unfold ExtractAppInfoFromBinaryManifest.
  rewrite Hroot, Hns, Hname, Hattr. reflexivity.
Qed.

End AppInfoClaims.

(* ------------------------------------------------------------------------- *)
(** ** GenerateSplitManifest *)

Section SplitManifestClaims.
Context {Axes : Type} `{ConfigOps Axes} `{Platform}.

Lemma string_append_assoc (a b c : string) : (a +:+ b) +:+ c = a +:+ (b +:+ c).
Proof. induction a as [|x a IH]; simpl; [reflexivity|now rewrite IH]. Qed.

(** C5. For every AppInfo and every SplitConstraints whose set is well formed
    (strictly ascending, as a [std::set] is), the root element of the document
    that [GenerateSplitManifest] makes is the [manifest] element, and its
    unqualified [split] attribute is "config." followed by the printed
    descriptors of the set in ascending order with "_" between them when the
    AppInfo has no split name; with a split name, it is the name, ".", and
    that same string, and there is an unqualified [configForSplit] attribute
    whose value is the split name (there is none without a split name). *)
Theorem split_manifest_split_attribute (app_info : AppInfo)
        (constraints : SplitConstraints Axes) :
  set_wf (configs constraints) ->
  exists manifest_el sorted,
    xml.FindRootElement (xml.root (GenerateSplitManifest app_info constraints))
    = Some manifest_el /\
    xml.el_name manifest_el = "manifest" /\
    StronglySorted (fun a b => config_lt a b = true) sorted /\
    (forall c, In c sorted <-> In c (configs constraints)) /\
    match split_name app_info with
    | None =>
        xml.FindAttribute manifest_el "" "split"
        = Some (xml.mkAttribute "" "split"
                  ("config." +:+ String.concat "_" (map toString sorted)) None None) /\
        xml.FindAttribute manifest_el "" "configForSplit" = None
    | Some split_name =>
        xml.FindAttribute manifest_el "" "split"
        = Some (xml.mkAttribute "" "split"
                  (split_name +:+ "." +:+ "config."
                   +:+ String.concat "_" (map toString sorted)) None None) /\
        xml.FindAttribute manifest_el "" "configForSplit"
        = Some (xml.mkAttribute "" "configForSplit" split_name None None)
    end.
Proof.
  intros Hwf.
  destruct app_info as [pkg min_sdk [vc|] [rc|] [sn|]];
    (eexists; exists (configs constraints);
     split; [reflexivity|]; split; [reflexivity|];
     split; [exact Hwf|]; split; [tauto|];
     unfold xml.FindAttribute, xml.attribute_matches, split_attribute_name, Joiner;
     simpl; rewrite ?Bool.andb_false_r, ?string_append_assoc; split; reflexivity).
Qed.

End SplitManifestClaims.

(* ------------------------------------------------------------------------- *)
(** ** The properties at concrete inputs *)

(** The lexicographic order of the sample instance is a strict total order. *)
Lemma Sample_order : @ConfigOrder Z Sample.config_ops.
Proof.
  constructor; simpl; unfold Sample.less.
  - intros [d s o]; simpl. now rewrite !Z.ltb_irrefl.
  - intros [d1 s1 o1] [d2 s2 o2] [d3 s3 o3]; simpl.
    repeat match goal with
           | |- context [?a <? ?b] => destruct (Z.ltb_spec a b)
           end; intros; try discriminate; try reflexivity; lia.
  - intros [d1 s1 o1] [d2 s2 o2]; simpl.
    repeat match goal with
           | |- context [?a <? ?b] => destruct (Z.ltb_spec a b)
           end; intros; try discriminate.
    f_equal; lia.
Qed.

(** The functions run on the sample instance. *)
Example Split_keeps_empty_parts :
  Split "a:b::c" ":"%char = ["a"; "b"; ""; "c"] /\ Split "" ":"%char = [""].
Proof. split; reflexivity. Qed.

Example ParseSplitParameter_en_fr :
  @ParseSplitParameter Z Sample.config_ops Sample.platform
    "out.apk:en,fr" [] "" empty_constraints
  = mkSplitResult true [] "out.apk" (mkSplitConstraints [Sample.en; Sample.fr]).
Proof. reflexivity. Qed.

Example ParseSplitParameter_three_parts :
  split_ok (@ParseSplitParameter Z Sample.config_ops Sample.platform
              "a:en:fr" [] "" empty_constraints) = false.
Proof. reflexivity. Qed.

Example ParseSplitParameter_names_first_unparsable :
  split_diag (@ParseSplitParameter Z Sample.config_ops Sample.platform
                "out.apk:en,zz9,fr,q7" [] "" empty_constraints)
  = [mkActual Error
       (mkDiagMessage None
          "invalid config 'zz9' in split parameter 'out.apk:en,zz9,fr,q7'")].
Proof. reflexivity. Qed.

Example Adjust_21 :
  @AdjustSplitConstraintsForMinSdk Z Sample.config_ops 21
    [mkSplitConstraints [Sample.en_v18; Sample.en_v19; Sample.en_v23];
     mkSplitConstraints [Sample.fr]]
  = [mkSplitConstraints [Sample.en; Sample.en_v23]; mkSplitConstraints [Sample.fr]].
Proof. reflexivity. Qed.

Example ParseTargetDensityParameter_locale :
  fst (@ParseTargetDensityParameter Z Sample.config_ops "en" []) = None /\
  fst (@ParseTargetDensityParameter Z Sample.config_ops "xhdpi" []) = Some 320.
Proof. split; reflexivity. Qed.

Example ExtractSdkVersion_compiled_string :
  @ExtractSdkVersion Sample.platform Sample.resource_utils
    (xml.mkAttribute "" "minSdkVersion" "21" None (Some (Item_String "O"))) ""
  = (None, "compiled string value is not a valid SDK version").
Proof. reflexivity. Qed.

(** The claims' theorems applied to concrete inputs. *)
Lemma extractors_compiled_first_witness :
  let attr :=
    xml.mkAttribute "" "versionCode" "not a number" None
      (Some (Item_BinaryPrimitive (mkRes_value 0x10 7))) in
  @ExtractCompiledInt Sample.platform Sample.resource_utils attr "" = (Some 7, "") /\
  ExtractCompiledString attr "" = (None, "compiled value is not a string").
Proof.
  intros attr.
  destruct (proj1 (@extractors_compiled_first Sample.platform Sample.resource_utils
                     attr "") _ eq_refl)
    as (_ & _ & _ & Hstring & Hint & _).
  split.
  - exact (proj1 (Hint _ eq_refl eq_refl)).
  - exact (Hstring eq_refl).
Defined.

Lemma minimal_manifest_app_info_witness :
  exists app_info,
    @ExtractAppInfoFromBinaryManifest Sample.platform Sample.resource_utils
      Sample.minimal_manifest [] = (Some app_info, []) /\
    app_info = {| package := "com.example"; min_sdk_version := None;
                  version_code := None; revision_code := None;
                  split_name := None |} /\
    min_sdk_version_or_default app_info = 0.
Proof.
  apply (@minimal_manifest_app_info Sample.platform Sample.resource_utils
           Sample.minimal_manifest [] 2 None None []).
  - reflexivity.
  - left. reflexivity.
  - intros child Hin. exact Hin.
Defined.

Lemma adjust_strips_sdk_up_to_min_witness :
  exists constraint,
    nth_error
      (@AdjustSplitConstraintsForMinSdk Z Sample.config_ops 21
         [mkSplitConstraints [Sample.en_v18; Sample.en_v23]]) 0
    = Some constraint /\
    In Sample.en (configs constraint).
Proof.
  destruct (proj2 (proj2 (@adjust_strips_sdk_up_to_min Z Sample.config_ops Sample_order
                            21 [mkSplitConstraints [Sample.en_v18; Sample.en_v23]]))
              eq_refl 0%nat _ Sample.en_v18 eq_refl (or_introl eq_refl))
    as (constraint & Hnth & H18 & _).
  exists constraint. split; [exact Hnth|exact (H18 eq_refl)].
Defined.

Lemma adjust_idempotent_witness :
  let once :=
    @AdjustSplitConstraintsForMinSdk Z Sample.config_ops 21
      [mkSplitConstraints [Sample.en_v18; Sample.en_v19; Sample.en_v23]] in
  @AdjustSplitConstraintsForMinSdk Z Sample.config_ops 21 once = once.
Proof.
  intros once.
  exact (@adjust_idempotent Z Sample.config_ops Sample_order 21
           [mkSplitConstraints [Sample.en_v18; Sample.en_v19; Sample.en_v23]]).
Defined.

Lemma adjust_never_grows_and_collapses_witness :
  exists constraint,
    nth_error
      (@AdjustSplitConstraintsForMinSdk Z Sample.config_ops 21
         [mkSplitConstraints [Sample.en_v18; Sample.en_v19; Sample.en_v23]]) 0
    = Some constraint /\
    In Sample.en (configs constraint) /\
    (List.length (configs constraint) < 3)%nat.
Proof.
  destruct (@adjust_never_grows_and_collapses Z Sample.config_ops Sample_order 21
              [mkSplitConstraints [Sample.en_v18; Sample.en_v19; Sample.en_v23]]
              0%nat _ eq_refl)
    as (constraint & Hnth & _ & _ & _ & Hcollapse).
  exists constraint. split; [exact Hnth|].
  assert (Hdiff : Sample.en_v18 <> Sample.en_v19) by discriminate.
  assert (H18 : sdkVersion Sample.en_v18 <= 21) by (simpl; lia).
  assert (H19 : sdkVersion Sample.en_v19 <= 21) by (simpl; lia).
  destruct (Hcollapse Sample.en_v18 Sample.en_v19
              (or_introl eq_refl) (or_intror (or_introl eq_refl))
              Hdiff eq_refl eq_refl H18 H19)
    as (_ & Hin & _ & Hlt).
  split; [exact Hin|exact Hlt].
Defined.

Lemma split_manifest_split_attribute_witness :
  exists manifest_el,
    xml.FindRootElement
      (xml.root
         (@GenerateSplitManifest Z Sample.config_ops Sample.platform
            (mkAppInfo "com.example" None (Some 7) None (Some "feature"))
            (mkSplitConstraints [Sample.en_v18; Sample.fr])))
    = Some manifest_el /\
    xml.FindAttribute manifest_el "" "split"
    = Some (xml.mkAttribute "" "split" "feature.config.en-v18_fr" None None) /\
    xml.FindAttribute manifest_el "" "configForSplit"
    = Some (xml.mkAttribute "" "configForSplit" "feature" None None).
Proof.
  assert (Hwf : @set_wf Z Sample.config_ops [Sample.en_v18; Sample.fr]).
  { repeat constructor. }
  destruct (@split_manifest_split_attribute Z Sample.config_ops Sample.platform
              (mkAppInfo "com.example" None (Some 7) None (Some "feature"))
              (mkSplitConstraints [Sample.en_v18; Sample.fr]) Hwf)
    as (manifest_el & sorted & Hroot & _ & Hsorted & Hin & Hsplit & Hfor).
  exists manifest_el. split; [exact Hroot|]. split; [|exact Hfor].
  rewrite Hsplit. do 2 f_equal.
  rewrite (@set_wf_ext Z Sample.config_ops Sample_order sorted
             [Sample.en_v18; Sample.fr] Hsorted Hwf Hin).
  reflexivity.
Defined.

Lemma density_parameter_outcomes_witness :
  @Parse Z Sample.config_ops "hdpi" = Some (mkConfig 240 4 0) /\
  @ParseTargetDensityParameter Z Sample.config_ops "hdpi" [] = (Some 240, []).
Proof.
  split; [reflexivity|].
  exact (proj2 (proj2 (@density_parameter_outcomes Z Sample.config_ops "hdpi" []))
           (mkConfig 240 4 0) eq_refl eq_refl).
Defined.

Lemma split_parameter_outcomes_witness :
  split_ok (@ParseSplitParameter Z Sample.config_ops Sample.platform
              "bad" [] "" empty_constraints) = false /\
  exists en fr,
    @Parse Z Sample.config_ops "en" = Some en /\
    @Parse Z Sample.config_ops "fr" = Some fr /\
    let r := @ParseSplitParameter Z Sample.config_ops Sample.platform
               "out.apk:en,fr" [] "" empty_constraints in
    out_path r = "out.apk" /\
    forall x, In x (configs (out_split r)) <-> x = en \/ x = fr.
Proof.
  destruct (proj2 (proj2 (proj2
              (@split_parameter_outcomes Z Sample.config_ops Sample.platform
                 Sample_order "out.apk:en,fr" [] "" empty_constraints))))
    as (Hbad & Hgood & _).
  split; [exact Hbad|].
  exact (Hgood eq_refl).
Defined.

Lemma split_parameter_failure_keeps_writes_witness :
  let r := @ParseSplitParameter Z Sample.config_ops Sample.platform
             "out.apk:en,zz9,fr" [] "" empty_constraints in
  split_ok r = false /\ out_path r = "out.apk" /\
  out_split r = mkSplitConstraints [Sample.en].
Proof.
  intros r.
  destruct (@split_parameter_failure_keeps_writes Z Sample.config_ops Sample.platform
              Sample_order "out.apk:en,zz9,fr" [] "" empty_constraints
              "out.apk" "en,zz9,fr" ["en"] "zz9" ["fr"] [Sample.en]
              eq_refl eq_refl
              (Forall2_cons _ _
                 (eq_refl : @Parse Z Sample.config_ops "en" = Some Sample.en)
                 (Forall2_nil _))
              eq_refl)
    as (Hok & Hpath & Hsplit & _).
  split; [exact Hok|]. split; [exact Hpath|exact Hsplit].
Defined.

Lemma missing_package_reported_at_document_witness :
  @ExtractAppInfoFromBinaryManifest Sample.platform Sample.resource_utils
    Sample.manifest_without_package []
  = (None,
     [mkActual Error
        (mkDiagMessage (Some (mkSource "AndroidManifest.xml" None))
                       "<manifest> must have a 'package' attribute")]).
Proof.
  exact (@missing_package_reported_at_document Sample.platform Sample.resource_utils
           Sample.manifest_without_package [] (xml.mkElement 2 "" "manifest" [] [])
           eq_refl eq_refl eq_refl eq_refl).
Defined.

(** C8, as the claim states it, fails: the root element of this document is
    [manifest] with an empty namespace, at line 2, without [package]
    attribute; the one diagnostic reported carries the source of the document
    without a line, not the source with the line of the root element. *)
Lemma missing_package_not_anchored_at_root_line :
  exists manifest_el reported,
    xml.FindRootElement (xml.root Sample.manifest_without_package) = Some manifest_el /\
    xml.el_namespace_uri manifest_el = "" /\
    xml.el_name manifest_el = "manifest" /\
    xml.line_number manifest_el = 2 /\
    xml.FindAttribute manifest_el "" "package" = None /\
    @ExtractAppInfoFromBinaryManifest Sample.platform Sample.resource_utils
      Sample.manifest_without_package [] = (None, [reported]) /\
    source (diag_message reported) = Some (mkSource "AndroidManifest.xml" None) /\
    source (diag_message reported)
    <> Some (WithLine (xml.file_source Sample.manifest_without_package)
                      (xml.line_number manifest_el)).
Proof.
  eexists. eexists.
  repeat (split; [reflexivity|]).
  simpl. discriminate.
Qed.

(* ------------------------------------------------------------------------- *)
(** ** Further properties: ParseConfigFilterParameters *)

Section ConfigFilterFacts.
Context {Axes : Type} `{ConfigOps Axes} `{LocaleOps Axes} `{ConfigFilterOps Axes}.

(** Either every token stands for a value, or there is a first one that
    does not. *)
Lemma all_or_first_failure {A : Type} (f : string -> option A) (tokens : list string) :
  (exists values, Forall2 (fun t v => f t = Some v) tokens values) \/
  (exists pre bad post values,
      tokens = pre ++ bad :: post /\
      Forall2 (fun t v => f t = Some v) pre values /\ f bad = None).
Proof.
  induction tokens as [|t tokens IH].
  - left. exists []. constructor.
  - destruct (f t) as [v|] eqn:Ht.
    + destruct IH as [[values Hall]|(pre & bad & post & values & -> & Hall & Hbad)].
      * left. exists (v :: values). now constructor.
      * right. exists (t :: pre), bad, post, (v :: values).
        split; [reflexivity|]. split; [now constructor|exact Hbad].
    + right. exists [], t, tokens, []. split; [reflexivity|].
      split; [constructor|exact Ht].
Qed.

Lemma filter_tokens_loop_success tokens descriptors diag filter :
  resolve_all tokens descriptors ->
  ParseConfigFilterParameters_tokens tokens diag filter
  = (Some (add_all (List.filter without_density descriptors) filter),
     diag ++ map density_warning (List.filter has_density descriptors)).
Proof.
  intros Hall. revert diag filter.
  induction Hall as [|t c ts cs Ht _ IH]; intros diag filter; simpl.
  - now rewrite app_nil_r.
  - unfold filter_token_config in Ht. rewrite Ht.
    unfold has_density, without_density.
    destruct (density c =? 0); simpl.
    + apply IH.
    + rewrite IH. unfold diag_Warn, density_warning.
      now rewrite <- app_assoc.
Qed.

Lemma filter_tokens_loop_failure pre bad post descriptors diag filter :
  resolve_all pre descriptors -> filter_token_config bad = None ->
  ParseConfigFilterParameters_tokens (pre ++ bad :: post) diag filter
  = (None,
     diag ++ map density_warning (List.filter has_density descriptors)
          ++ [invalid_filter_config bad]).
Proof.
  intros Hall Hbad. revert diag filter.
  induction Hall as [|t c ts cs Ht _ IH]; intros diag filter; simpl.
  - unfold filter_token_config in Hbad. now rewrite Hbad.
  - unfold filter_token_config in Ht. rewrite Ht.
    unfold has_density.
    destruct (density c =? 0); simpl.
    + apply IH.
    + rewrite IH. unfold diag_Warn, density_warning.
      now rewrite <- app_assoc.
Qed.

Lemma filter_tokens_loop_app tokens1 tokens2 diag filter :
  ParseConfigFilterParameters_tokens (tokens1 ++ tokens2) diag filter
  = match ParseConfigFilterParameters_tokens tokens1 diag filter with
    | (None, diag') => (None, diag')
    | (Some filter', diag') =>
        ParseConfigFilterParameters_tokens tokens2 diag' filter'
    end.
Proof.
  revert diag filter. induction tokens1 as [|t ts IH]; intros diag filter; simpl.
  - reflexivity.
  - destruct (match InitFromFilterString t with
              | Some lv => Some (WriteTo lv DefaultConfig)
              | None => Parse t
              end) as [c|]; [|reflexivity].
    destruct (negb (density c =? 0)); apply IH.
Qed.

(** The two nested loops are one loop over the tokens of all arguments. *)
Lemma filter_args_loop_flat args diag filter :
  ParseConfigFilterParameters_args args diag filter
  = ParseConfigFilterParameters_tokens (filter_tokens args) diag filter.
Proof.
  revert diag filter. induction args as [|a args IH]; intros diag filter; simpl.
  - reflexivity.
  - rewrite filter_tokens_loop_app.
    destruct (ParseConfigFilterParameters_tokens (Tokenize a ","%char) diag filter)
      as [[filter'|] diag']; [apply IH|reflexivity].
Qed.

(** X1. When every token of every argument stands for a description (a
    locale filter string, or else a qualifier that parses),
    [ParseConfigFilterParameters] returns a filter: the empty filter with the
    descriptions of density 0 added in token order. It reports one warning for
    every description with a density, in token order, and nothing else. *)
Theorem config_filter_success (args : list string) (diag : IDiagnostics)
        (descriptors : list (ConfigDescription Axes)) :
  resolve_all (filter_tokens args) descriptors ->
  ParseConfigFilterParameters args diag
  = (Some (add_all (List.filter without_density descriptors) make_filter),
     diag ++ map density_warning (List.filter has_density descriptors)).
Proof.
  intros Hall. unfold ParseConfigFilterParameters.
  rewrite filter_args_loop_flat. now apply filter_tokens_loop_success.
Qed.

(** X2. When some token stands for no description, the function returns no
    filter at all. It reports the warnings for the descriptions with a density
    before the first such token, then the error that names that token; the
    tokens after it are not looked at. *)
Theorem config_filter_failure (args : list string) (diag : IDiagnostics)
        (pre : list string) (bad : string) (post : list string)
        (descriptors : list (ConfigDescription Axes)) :
  filter_tokens args = pre ++ bad :: post ->
  resolve_all pre descriptors ->
  filter_token_config bad = None ->
  ParseConfigFilterParameters args diag
  = (None,
     diag ++ map density_warning (List.filter has_density descriptors)
          ++ [invalid_filter_config bad]).
Proof.
  intros Htok Hall Hbad. unfold ParseConfigFilterParameters.
  rewrite filter_args_loop_flat, Htok. now apply filter_tokens_loop_failure.
Qed.

(** X3. Whatever the arguments. When a filter is returned, every token
    stands for a description; the filter is the empty filter with those
    descriptions of density 0 added, in token order, and the diagnostics
    gained the warnings about those with a density, in token order, and
    nothing else: every description was either added or warned about, none
    both. When no filter is returned, there is a first token that stands for
    no description; the diagnostics gained the warnings about the
    descriptions with a density of the tokens before it, and then the error
    that names it, as the last entry. *)
Theorem config_filter_outcome (args : list string) (diag : IDiagnostics) :
  (forall filter diag',
      ParseConfigFilterParameters args diag = (Some filter, diag') ->
      exists descriptors added warned,
        resolve_all (filter_tokens args) descriptors /\
        added = List.filter without_density descriptors /\
        warned = List.filter has_density descriptors /\
        (forall c, In c descriptors ->
                   (In c added /\ ~ In c warned) \/ (In c warned /\ ~ In c added)) /\
        filter = add_all added make_filter /\
        Forall (fun c => density c = 0) added /\
        Forall (fun c => density c <> 0) warned /\
        diag' = diag ++ map density_warning warned /\
        (List.length added + List.length warned
         = List.length (filter_tokens args))%nat) /\
  (forall diag',
      ParseConfigFilterParameters args diag = (None, diag') ->
      exists pre bad post descriptors warned,
        filter_tokens args = pre ++ bad :: post /\
        resolve_all pre descriptors /\
        warned = List.filter has_density descriptors /\
        In bad (filter_tokens args) /\ filter_token_config bad = None /\
        diag' = diag ++ map density_warning warned ++ [invalid_filter_config bad]).
Proof.
  assert (Hzero : forall descriptors : list (ConfigDescription Axes),
             Forall (fun c => density c = 0) (List.filter without_density descriptors)).
  { intros descriptors. apply Forall_forall. intros c Hc. apply filter_In in Hc.
    now apply Z.eqb_eq. }
  assert (Hdense : forall descriptors : list (ConfigDescription Axes),
             Forall (fun c => density c <> 0) (List.filter has_density descriptors)).
  { intros descriptors. apply Forall_forall. intros c Hc. apply filter_In in Hc.
    destruct Hc as [_ Hc]. unfold has_density in Hc.
    apply Bool.negb_true_iff in Hc. now apply Z.eqb_neq. }
  destruct (all_or_first_failure filter_token_config (filter_tokens args))
    as [[descriptors Hall]|(pre & bad & post & descriptors & Htok & Hall & Hbad)].
  - unfold ParseConfigFilterParameters.
    rewrite filter_args_loop_flat, (filter_tokens_loop_success _ _ _ _ Hall). split.
    + intros filter diag' E. inversion E; subst.
      exists descriptors, (List.filter without_density descriptors),
        (List.filter has_density descriptors).
      split; [exact Hall|]. split; [reflexivity|]. split; [reflexivity|].
      split; [|split; [reflexivity|split; [apply Hzero|split; [apply Hdense|
                split; [reflexivity|]]]]].
      * intros c Hc.
        pose proof (Hzero descriptors) as Hz. pose proof (Hdense descriptors) as Hd.
        rewrite Forall_forall in Hz, Hd.
        destruct (density c =? 0) eqn:Ec.
        -- left. split.
           ++ apply filter_In. split; [exact Hc|exact Ec].
           ++ intros Hw. apply (Hd _ Hw). now apply Z.eqb_eq.
        -- right. split.
           ++ apply filter_In. split; [exact Hc|]. unfold has_density. now rewrite Ec.
           ++ intros Ha. apply Z.eqb_neq in Ec. apply Ec. now apply Hz.
      * rewrite (Forall2_length Hall).
        clear. induction descriptors as [|c cs IH]; simpl; [reflexivity|].
        unfold has_density, without_density in *.
        destruct (density c =? 0); simpl; lia.
    + intros diag' E. discriminate.
  - unfold ParseConfigFilterParameters.
    rewrite filter_args_loop_flat, Htok,
      (filter_tokens_loop_failure _ _ _ _ _ _ Hall Hbad). split.
    + intros filter diag' E. discriminate.
    + intros diag' E. inversion E; subst.
      exists pre, bad, post, descriptors, (List.filter has_density descriptors).
      split; [reflexivity|]. split; [exact Hall|]. split; [reflexivity|].
      split; [|split; [exact Hbad|reflexivity]].
      apply in_or_app. right. now left.
Qed.

(** X4. The arguments count only through their tokens: two argument lists
    with the same tokens in the same order (as ["en,fr"] and ["en"; "fr"])
    give the same filter and the same diagnostics. *)
Theorem config_filter_depends_on_tokens (args1 args2 : list string)
        (diag : IDiagnostics) :
  filter_tokens args1 = filter_tokens args2 ->
  ParseConfigFilterParameters args1 diag = ParseConfigFilterParameters args2 diag.
Proof.
  intros E. unfold ParseConfigFilterParameters.
  now rewrite !filter_args_loop_flat, E.
Qed.

End ConfigFilterFacts.

(* ------------------------------------------------------------------------- *)
(** ** Further properties: AdjustSplitConstraintsForMinSdk *)

Section AdjustMore.
Context {Axes : Type} `{ConfigOps Axes}.

Lemma adjust_config_compose m1 m2 (config : ConfigDescription Axes) :
  adjust_config m1 (adjust_config m2 config) = adjust_config (Z.max m1 m2) config.
Proof.
  unfold adjust_config.
  destruct (sdkVersion config <=? m2) eqn:E2.
  - apply Z.leb_le in E2.
    assert (E : (sdkVersion config <=? Z.max m1 m2) = true) by (apply Z.leb_le; lia).
    rewrite E. simpl. now destruct (0 <=? m1).
  - apply Z.leb_gt in E2.
    destruct (sdkVersion config <=? m1) eqn:E1.
    + apply Z.leb_le in E1.
      assert (E : (sdkVersion config <=? Z.max m1 m2) = true) by (apply Z.leb_le; lia).
      now rewrite E.
    + apply Z.leb_gt in E1.
      assert (E : (sdkVersion config <=? Z.max m1 m2) = false) by (apply Z.leb_gt; lia).
      now rewrite E.
Qed.

Lemma adjust_config_fixed min_sdk (config : ConfigDescription Axes) :
  sdkVersion config = 0 \/ min_sdk < sdkVersion config ->
  adjust_config min_sdk config = config.
Proof.
  unfold adjust_config. intros [E|E].
  - destruct config as [d s o]. simpl in *. subst.
    now destruct (0 <=? min_sdk).
  - apply Z.leb_gt in E. now rewrite E.
Qed.

Lemma adjust_config_sdk min_sdk (config : ConfigDescription Axes) :
  sdkVersion (adjust_config min_sdk config) = 0 \/
  min_sdk < sdkVersion (adjust_config min_sdk config).
Proof.
  unfold adjust_config.
  destruct (sdkVersion config <=? min_sdk) eqn:E; [now left|].
  right. now apply Z.leb_gt.
Qed.

(** Membership in the adjusted set, without any assumption on the order. *)
Lemma In_adjust_fold_inv min_sdk l (acc : SplitConstraints Axes) x :
  In x (configs (fold_left (adjust_insert min_sdk) l acc)) ->
  In x (configs acc) \/ exists c, In c l /\ x = adjust_config min_sdk c.
Proof.
  revert acc. induction l as [|c l IH]; intros acc; simpl; [auto|].
  intros Hin. apply IH in Hin. rewrite adjust_insert_eq in Hin. simpl in Hin.
  destruct Hin as [Hin|[c' [Hc' ->]]]; [|eauto].
  apply In_set_insert_inv in Hin. destruct Hin as [->|Hin]; eauto.
Qed.

(** X5. No SDK version at or below the minimum survives the adjustment:
    every descriptor of every adjusted constraint has SDK version 0 or an SDK
    version above [min_sdk]. It comes from a descriptor of the input
    constraint at the same place, with the same density and the same other
    axes, and with the same SDK version unless that was cleared. *)
Theorem adjusted_descriptors (min_sdk : Z)
        (split_constraints : list (SplitConstraints Axes)) :
  forall i constraint c,
    nth_error (AdjustSplitConstraintsForMinSdk min_sdk split_constraints) i
    = Some constraint ->
    In c (configs constraint) ->
    (sdkVersion c = 0 \/ min_sdk < sdkVersion c) /\
    exists constraints config,
      nth_error split_constraints i = Some constraints /\
      In config (configs constraints) /\
      density c = density config /\ otherAxes c = otherAxes config /\
      (sdkVersion c = sdkVersion config \/
       sdkVersion c = 0 /\ sdkVersion config <= min_sdk).
Proof.
  intros i constraint c Hnth Hin. rewrite Adjust_map, nth_error_map in Hnth.
  destruct (nth_error split_constraints i) as [constraints|] eqn:Hi; [|discriminate].
  inversion Hnth; subst. clear Hnth.
  apply In_adjust_fold_inv in Hin. destruct Hin as [[]|[config [Hconfig ->]]].
  split; [apply adjust_config_sdk|].
  exists constraints, config. split; [reflexivity|]. split; [exact Hconfig|].
  unfold adjust_config.
  destruct (sdkVersion config <=? min_sdk) eqn:E; simpl; auto.
  apply Z.leb_le in E. auto.
Qed.

Section Ordered.
Context `{!ConfigOrder Axes}.

Lemma adjust_constraints_compose m1 m2 (constraints : SplitConstraints Axes) :
  adjust_constraints m1 (adjust_constraints m2 constraints)
  = adjust_constraints (Z.max m1 m2) constraints.
Proof.
  assert (E : configs (adjust_constraints m1 (adjust_constraints m2 constraints))
              = configs (adjust_constraints (Z.max m1 m2) constraints)).
  { apply set_wf_ext; try apply wf_adjust_constraints.
    intros x. rewrite !In_adjust_constraints. split.
    - intros [c [Hc ->]]. apply In_adjust_constraints in Hc.
      destruct Hc as [c0 [Hc0 ->]]. exists c0.
      now rewrite adjust_config_compose.
    - intros [c0 [Hc0 ->]]. exists (adjust_config m2 c0). split.
      + apply In_adjust_constraints. now exists c0.
      + now rewrite adjust_config_compose. }
  destruct (adjust_constraints m1 (adjust_constraints m2 constraints)),
    (adjust_constraints (Z.max m1 m2) constraints).
  simpl in E. now rewrite E.
Qed.

(** X6. Adjusting for one minimum SDK and then for another is adjusting once
    for the larger of the two, in either order. *)
Theorem adjust_twice_is_adjust_max (m1 m2 : Z)
        (split_constraints : list (SplitConstraints Axes)) :
  AdjustSplitConstraintsForMinSdk m1
    (AdjustSplitConstraintsForMinSdk m2 split_constraints)
  = AdjustSplitConstraintsForMinSdk (Z.max m1 m2) split_constraints.
Proof.
  rewrite !Adjust_map, map_map. apply map_ext. intros constraints.
  apply adjust_constraints_compose.
Qed.

(** X7. The sequences that the adjustment leaves unchanged are exactly those
    whose sets are well formed (strictly ascending) and in which every
    descriptor has SDK version 0 or an SDK version above [min_sdk]. *)
Theorem adjust_fixed_points (min_sdk : Z)
        (split_constraints : list (SplitConstraints Axes)) :
  AdjustSplitConstraintsForMinSdk min_sdk split_constraints = split_constraints
  <->
  (forall constraints,
      In constraints split_constraints ->
      set_wf (configs constraints) /\
      forall c, In c (configs constraints) ->
                sdkVersion c = 0 \/ min_sdk < sdkVersion c).
Proof.
  rewrite Adjust_map. split.
  - intros Hfix constraints Hin.
    assert (E : adjust_constraints min_sdk constraints = constraints).
    { apply In_nth_error in Hin. destruct Hin as [i Hi].
      assert (Hi' : nth_error (map (adjust_constraints min_sdk) split_constraints) i
                    = Some constraints) by (rewrite Hfix; exact Hi).
      rewrite nth_error_map, Hi in Hi'. simpl in Hi'. congruence. }
    split.
    + rewrite <- E. apply wf_adjust_constraints.
    + intros c Hc. rewrite <- E in Hc. apply In_adjust_constraints in Hc.
      destruct Hc as [c0 [_ ->]]. apply adjust_config_sdk.
  - intros Hall. rewrite <- (map_id split_constraints) at 2.
    apply map_ext_in. intros constraints Hin.
    destruct (Hall _ Hin) as [Hwf Hsdk].
    assert (E : configs (adjust_constraints min_sdk constraints) = configs constraints).
    { apply set_wf_ext; [apply wf_adjust_constraints|exact Hwf|].
      intros x. rewrite In_adjust_constraints. split.
      - intros [c [Hc ->]]. now rewrite adjust_config_fixed by auto.
      - intros Hx. exists x. split; [exact Hx|].
        now rewrite adjust_config_fixed by auto. }
    destruct (adjust_constraints min_sdk constraints), constraints.
    simpl in E. now rewrite E.
Qed.

End Ordered.
End AdjustMore.

(* ------------------------------------------------------------------------- *)
(** ** Further properties: ParseSplitParameter *)

Section SplitParameterMore.
Context {Axes : Type} `{ConfigOps Axes} `{Platform}.

Lemma two_parts_iff (parts : list string) :
  List.length parts = 2%nat <-> exists p c, parts = [p; c].
Proof.
  split.
  - destruct parts as [|p [|c [|x rest]]]; simpl; try discriminate.
    intros _. now exists p, c.
  - intros (p & c & ->). reflexivity.
Qed.

(** X8. [ParseSplitParameter] returns true exactly when the argument has two
    parts and every token of the second part parses; it reports something
    exactly when it returns false, and what it reports is appended to the
    diagnostics it was given: one error for a token, or the error and the
    usage note for the part count. *)
Theorem split_parameter_success_iff (arg : string) (diag : IDiagnostics)
        (path0 : string) (split0 : SplitConstraints Axes) :
  let r := ParseSplitParameter arg diag path0 split0 in
  (split_ok r = true <->
   exists p c descriptors,
     Split arg sSeparator = [p; c] /\ parse_all (Tokenize c ","%char) descriptors) /\
  exists reported,
    split_diag r = diag ++ reported /\
    (split_ok r = true <-> reported = []) /\
    (List.length reported <= 2)%nat /\
    (forall d, In d reported -> source (diag_message d) = None) /\
    (forall d, hd_error reported = Some d -> level d = Error).
Proof.
  intros r. subst r.
  destruct (Nat.eq_dec (List.length (Split arg sSeparator)) 2) as [Hlen|Hlen].
  - apply two_parts_iff in Hlen. destruct Hlen as (p & c & Hparts).
    rewrite (ParseSplitParameter_two_parts _ _ _ _ _ _ Hparts).
    destruct (all_or_first_failure Parse (Tokenize c ","%char))
      as [[descriptors Hall]|(pre & bad & post & descriptors & Htok & Hall & Hbad)].
    + rewrite (configs_loop_success _ _ _ _ _ _ Hall). simpl. split.
      * split; [|reflexivity]. intros _. now exists p, c, descriptors.
      * exists []. rewrite app_nil_r. repeat split; simpl; try lia; try tauto.
        discriminate.
    + rewrite Htok, (configs_loop_failure _ _ _ _ _ _ _ _ Hall Hbad). simpl. split.
      * split; [discriminate|].
        intros (p' & c' & ds & Hparts' & Hall').
        rewrite Hparts in Hparts'. inversion Hparts'; subst p' c'.
        rewrite Htok in Hall'. exfalso.
        apply Forall2_app_inv_l in Hall'.
        destruct Hall' as (ds1 & ds2 & _ & Hrest & _).
        inversion Hrest; subst. congruence.
      * eexists. split; [reflexivity|]. simpl.
        repeat split; try discriminate; try lia.
        -- intros d [<-|[]]. reflexivity.
        -- intros d E. inversion E. reflexivity.
  - rewrite (ParseSplitParameter_wrong_count _ _ _ _ Hlen). simpl. split.
    + split; [discriminate|].
      intros (p & c & ds & Hparts & _). rewrite Hparts in Hlen. now contradiction Hlen.
    + eexists. split; [reflexivity|]. simpl.
      repeat split; try discriminate; try lia.
      * intros d [<-|[<-|[]]]; reflexivity.
      * intros d E. inversion E. reflexivity.
Qed.

Section Ordered.
Context `{!ConfigOrder Axes}.

(** X9. The order of the tokens and their repetition do not matter: two
    arguments with the same path whose tokens parse to the same descriptors,
    in any order and any number of times, leave the same path and the same
    set, when the set they insert into is well formed. *)
Theorem split_parameter_token_order_irrelevant (arg1 arg2 : string)
        (diag1 diag2 : IDiagnostics) (path1 path2 : string)
        (split0 : SplitConstraints Axes) (p c1 c2 : string)
        (descriptors1 descriptors2 : list (ConfigDescription Axes)) :
  set_wf (configs split0) ->
  Split arg1 sSeparator = [p; c1] ->
  Split arg2 sSeparator = [p; c2] ->
  parse_all (Tokenize c1 ","%char) descriptors1 ->
  parse_all (Tokenize c2 ","%char) descriptors2 ->
  (forall x, In x descriptors1 <-> In x descriptors2) ->
  out_path (ParseSplitParameter arg1 diag1 path1 split0)
  = out_path (ParseSplitParameter arg2 diag2 path2 split0) /\
  out_split (ParseSplitParameter arg1 diag1 path1 split0)
  = out_split (ParseSplitParameter arg2 diag2 path2 split0).
Proof.
  intros Hwf Hp1 Hp2 Hall1 Hall2 Hsame.
  rewrite (ParseSplitParameter_two_parts _ _ _ _ _ _ Hp1),
    (ParseSplitParameter_two_parts _ _ _ _ _ _ Hp2).
  rewrite (configs_loop_success _ _ _ _ _ _ Hall1),
    (configs_loop_success _ _ _ _ _ _ Hall2). simpl.
  split; [reflexivity|].
  assert (E : configs (insert_all descriptors1 split0)
              = configs (insert_all descriptors2 split0)).
  { apply set_wf_ext; try now apply wf_insert_all.
    intros x. rewrite !In_insert_all, Hsame. tauto. }
  destruct (insert_all descriptors1 split0), (insert_all descriptors2 split0).
  simpl in E. now rewrite E.
Qed.

(** X10. The set invariant is kept along the way from the command line to
    the split manifest: [ParseSplitParameter] leaves a well-formed set well
    formed, whether it succeeds or fails, so a set it filled from empty is
    well formed; and every set that [AdjustSplitConstraintsForMinSdk] returns
    is well formed, whatever it was given. *)
Theorem set_invariant_kept (arg : string) (diag : IDiagnostics) (path0 : string)
        (split0 : SplitConstraints Axes) (min_sdk : Z)
        (split_constraints : list (SplitConstraints Axes)) :
  (set_wf (configs split0) ->
   set_wf (configs (out_split (ParseSplitParameter arg diag path0 split0)))) /\
  set_wf (configs (out_split (ParseSplitParameter arg diag path0 empty_constraints))) /\
  (forall constraint,
      In constraint (AdjustSplitConstraintsForMinSdk min_sdk split_constraints) ->
      set_wf (configs constraint)).
Proof.
  assert (Hkeep : forall s : SplitConstraints Axes,
             set_wf (configs s) ->
             set_wf (configs (out_split (ParseSplitParameter arg diag path0 s)))).
  { intros s Hwf.
    destruct (Nat.eq_dec (List.length (Split arg sSeparator)) 2) as [Hlen|Hlen].
    - apply two_parts_iff in Hlen. destruct Hlen as (p & c & Hparts).
      rewrite (ParseSplitParameter_two_parts _ _ _ _ _ _ Hparts).
      destruct (all_or_first_failure Parse (Tokenize c ","%char))
        as [[ds Hall]|(pre & bad & post & ds & Htok & Hall & Hbad)].
      + rewrite (configs_loop_success _ _ _ _ _ _ Hall). simpl.
        now apply wf_insert_all.
      + rewrite Htok, (configs_loop_failure _ _ _ _ _ _ _ _ Hall Hbad). simpl.
        now apply wf_insert_all.
    - now rewrite (ParseSplitParameter_wrong_count _ _ _ _ Hlen). }
  split; [apply Hkeep|]. split; [apply Hkeep; constructor|].
  intros constraint Hin. rewrite Adjust_map in Hin.
  apply in_map_iff in Hin. destruct Hin as [constraints [<- _]].
  apply wf_adjust_constraints.
Qed.

End Ordered.
End SplitParameterMore.

(* ------------------------------------------------------------------------- *)
(** ** Further properties: the extractors *)

Section ExtractorMore.
Context `{Platform} `{ResourceUtils}.

Lemma ExtractCompiledString_fst attr e1 e2 :
  fst (ExtractCompiledString attr e1) = fst (ExtractCompiledString attr e2).
Proof.
  unfold ExtractCompiledString.
  destruct (xml.compiled_value attr) as [compiled|].
  - destruct (ValueCast_String compiled) as [s|]; [|reflexivity].
    now destruct (negb (String.eqb s "")).
  - now destruct (negb (String.eqb (xml.value attr) "")).
Qed.

Lemma ExtractCompiledInt_fst attr e1 e2 :
  fst (ExtractCompiledInt attr e1) = fst (ExtractCompiledInt attr e2).
Proof.
  unfold ExtractCompiledInt.
  destruct (xml.compiled_value attr) as [compiled|].
  - destruct (ValueCast_BinaryPrimitive compiled) as [v|]; [|reflexivity].
    now destruct (is_int_type v).
  - now destruct (ParseInt (xml.value attr)).
Qed.

Lemma ExtractSdkVersion_fst attr e1 e2 :
  fst (ExtractSdkVersion attr e1) = fst (ExtractSdkVersion attr e2).
Proof.
  unfold ExtractSdkVersion.
  destruct (xml.compiled_value attr) as [compiled|].
  - destruct (ValueCast_BinaryPrimitive compiled) as [v|].
    + now destruct (is_int_type v).
    + destruct (ValueCast_String compiled) as [s|]; [|reflexivity].
      now destruct (ParseSdkVersion s).
  - now destruct (ParseSdkVersion (xml.value attr)).
Qed.

Lemma ExtractCompiledString_Some attr e v e' :
  ExtractCompiledString attr e = (Some v, e') -> v <> "" /\ e' = e.
Proof.
  unfold ExtractCompiledString.
  destruct (xml.compiled_value attr) as [compiled|].
  - destruct (ValueCast_String compiled) as [s|]; [|discriminate].
    destruct (String.eqb s "") eqn:E; simpl; [discriminate|].
    intros Heq. inversion Heq; subst. split; [now apply String.eqb_neq|reflexivity].
  - destruct (String.eqb (xml.value attr) "") eqn:E; simpl; [discriminate|].
    intros Heq. inversion Heq; subst. split; [now apply String.eqb_neq|reflexivity].
Qed.

Lemma ExtractCompiledString_None attr e e' :
  ExtractCompiledString attr e = (None, e') -> e' <> "".
Proof.
  unfold ExtractCompiledString.
  destruct (xml.compiled_value attr) as [compiled|].
  - destruct (ValueCast_String compiled) as [s|].
    + destruct (negb (String.eqb s "")); intros Heq; inversion Heq; discriminate.
    + intros Heq; inversion Heq; discriminate.
  - destruct (negb (String.eqb (xml.value attr) ""));
      intros Heq; inversion Heq; discriminate.
Qed.

Lemma ExtractCompiledInt_Some attr e v e' :
  ExtractCompiledInt attr e = (Some v, e') -> e' = e.
Proof.
  unfold ExtractCompiledInt.
  destruct (xml.compiled_value attr) as [compiled|].
  - destruct (ValueCast_BinaryPrimitive compiled) as [p|]; [|discriminate].
    destruct (is_int_type p); intros Heq; inversion Heq; reflexivity.
  - destruct (ParseInt (xml.value attr)); intros Heq; inversion Heq; reflexivity.
Qed.

Lemma ExtractCompiledInt_None attr e e' :
  ExtractCompiledInt attr e = (None, e') -> e' <> "".
Proof.
  unfold ExtractCompiledInt.
  destruct (xml.compiled_value attr) as [compiled|].
  - destruct (ValueCast_BinaryPrimitive compiled) as [p|].
    + destruct (is_int_type p); intros Heq; inversion Heq; discriminate.
    + intros Heq; inversion Heq; discriminate.
  - destruct (ParseInt (xml.value attr)); intros Heq; inversion Heq; discriminate.
Qed.

Lemma ExtractSdkVersion_Some attr e v e' :
  ExtractSdkVersion attr e = (Some v, e') -> e' = e.
Proof.
  unfold ExtractSdkVersion.
  destruct (xml.compiled_value attr) as [compiled|].
  - destruct (ValueCast_BinaryPrimitive compiled) as [p|].
    + destruct (is_int_type p); intros Heq; inversion Heq; reflexivity.
    + destruct (ValueCast_String compiled) as [s|]; [|discriminate].
      destruct (ParseSdkVersion s); intros Heq; inversion Heq; reflexivity.
  - destruct (ParseSdkVersion (xml.value attr)); intros Heq; inversion Heq; reflexivity.
Qed.

Lemma ExtractSdkVersion_None attr e e' :
  ExtractSdkVersion attr e = (None, e') -> e' <> "".
Proof.
  unfold ExtractSdkVersion.
  destruct (xml.compiled_value attr) as [compiled|].
  - destruct (ValueCast_BinaryPrimitive compiled) as [p|].
    + destruct (is_int_type p); intros Heq; inversion Heq; discriminate.
    + destruct (ValueCast_String compiled) as [s|].
      * destruct (ParseSdkVersion s); intros Heq; inversion Heq; discriminate.
      * intros Heq; inversion Heq; discriminate.
  - destruct (ParseSdkVersion (xml.value attr)); intros Heq; inversion Heq; discriminate.
Qed.

(** X11. What the extractors do with [*out_error]: a successful extraction
    leaves it as it was, a failed one sets it to a message that is not empty,
    and the extracted value does not depend on what it held. A string that
    the string extractor returns is never empty. *)
Theorem extractors_error_discipline (attr : xml.Attribute) (out_error : string) :
  (forall v e, ExtractCompiledString attr out_error = (Some v, e) ->
               v <> "" /\ e = out_error) /\
  (forall v e, ExtractCompiledInt attr out_error = (Some v, e) -> e = out_error) /\
  (forall v e, ExtractSdkVersion attr out_error = (Some v, e) -> e = out_error) /\
  (forall e, ExtractCompiledString attr out_error = (None, e) -> e <> "") /\
  (forall e, ExtractCompiledInt attr out_error = (None, e) -> e <> "") /\
  (forall e, ExtractSdkVersion attr out_error = (None, e) -> e <> "") /\
  (forall other,
      fst (ExtractCompiledString attr other) = fst (ExtractCompiledString attr out_error) /\
      fst (ExtractCompiledInt attr other) = fst (ExtractCompiledInt attr out_error) /\
      fst (ExtractSdkVersion attr other) = fst (ExtractSdkVersion attr out_error)).
Proof.
  split; [intros v e; apply ExtractCompiledString_Some|].
  split; [intros v e; apply ExtractCompiledInt_Some|].
  split; [intros v e; apply ExtractSdkVersion_Some|].
  split; [intros e; apply ExtractCompiledString_None|].
  split; [intros e; apply ExtractCompiledInt_None|].
  split; [intros e; apply ExtractSdkVersion_None|].
  intros other.
  split; [apply ExtractCompiledString_fst|].
  split; [apply ExtractCompiledInt_fst|apply ExtractSdkVersion_fst].
Qed.

(** X12. A compiled integer is read as [uint32_t] by the integer extractor and
    converted to [int] by the SDK-version extractor: for data below 2^31 the
    two agree, and from 2^31 on the SDK version is the data minus 2^32, a
    negative number. *)
Theorem sdk_version_of_compiled_integer (attr : xml.Attribute) (out_error : string)
        (v : Res_value) :
  xml.compiled_value attr = Some (Item_BinaryPrimitive v) ->
  is_int_type v = true ->
  0 <= data v < 2 ^ 32 ->
  ExtractCompiledInt attr out_error = (Some (data v), out_error) /\
  exists sdk_version,
    ExtractSdkVersion attr out_error = (Some sdk_version, out_error) /\
    - 2 ^ 31 <= sdk_version < 2 ^ 31 /\
    sdk_version mod 2 ^ 32 = data v /\
    (data v < 2 ^ 31 -> sdk_version = data v) /\
    (2 ^ 31 <= data v -> sdk_version = data v - 2 ^ 32 /\ sdk_version < 0).
Proof.
  intros Hc Hint Hrange.
  unfold ExtractCompiledInt, ExtractSdkVersion. rewrite Hc. simpl. rewrite Hint.
  split; [reflexivity|].
  exists (uint32_to_int (data v)). split; [reflexivity|].
  unfold uint32_to_int.
  destruct (Z.ltb_spec (data v) (2 ^ 31)) as [Hlt|Hge].
  - repeat split; try lia. apply Z.mod_small. lia.
  - repeat split; try lia.
    replace (data v - 2 ^ 32) with (data v + (-1) * 2 ^ 32) by lia.
    rewrite Z.mod_add by lia. apply Z.mod_small. lia.
Qed.

End ExtractorMore.

(* ------------------------------------------------------------------------- *)
(** ** Further properties: ExtractAppInfoFromBinaryManifest *)

Section AppInfoMore.
Context `{Platform} `{ResourceUtils}.

(** One step through the function: a case distinction on the next lookup,
    check or extraction, in the order of the source. *)
Ltac extract_step :=
  match goal with
  | |- context [match xml.FindRootElement ?x with _ => _ end] =>
      destruct (xml.FindRootElement x) as [manifest_el|] eqn:Hroot
  | |- context [if ?b then _ else _] => destruct b eqn:Hcheck
  | |- context [match xml.FindAttribute ?a ?b ?c with _ => _ end] =>
      let Hattr := fresh "Hattr" in
      destruct (xml.FindAttribute a b c) as [?attr|] eqn:Hattr
  | |- context [match xml.FindChild ?a ?b ?c with _ => _ end] =>
      destruct (xml.FindChild a b c) as [uses_sdk_el|] eqn:Hchild
  | |- context [ExtractCompiledString ?a ?x] =>
      let Hstr := fresh "Hstr" in
      destruct (ExtractCompiledString a x) as [[?v|] ?msg] eqn:Hstr
  | |- context [ExtractCompiledInt ?a ?x] =>
      let Hint := fresh "Hint" in
      destruct (ExtractCompiledInt a x) as [[?v|] ?msg] eqn:Hint
  | |- context [ExtractSdkVersion ?a ?x] =>
      let Hsdk := fresh "Hsdk" in
      destruct (ExtractSdkVersion a x) as [[?v|] ?msg] eqn:Hsdk
  end; cbv beta iota.

(** What an extraction that was run with some [error_msg] says about the
    extraction run with the empty one. *)
Ltac extracted_values :=
  repeat match goal with
    | E : ExtractCompiledString ?a ?x = (?r, _) |- _ =>
        let F := fresh "Hval" in
        assert (F : fst (ExtractCompiledString a "") = r)
          by (transitivity (fst (ExtractCompiledString a x)); [apply ExtractCompiledString_fst|now rewrite E]);
        first [ apply ExtractCompiledString_Some in E
              | apply ExtractCompiledString_None in E ]
    | E : ExtractCompiledInt ?a ?x = (?r, _) |- _ =>
        let F := fresh "Hval" in
        assert (F : fst (ExtractCompiledInt a "") = r)
          by (transitivity (fst (ExtractCompiledInt a x)); [apply ExtractCompiledInt_fst|now rewrite E]);
        first [ apply ExtractCompiledInt_Some in E
              | apply ExtractCompiledInt_None in E ]
    | E : ExtractSdkVersion ?a ?x = (?r, _) |- _ =>
        let F := fresh "Hval" in
        assert (F : fst (ExtractSdkVersion a "") = r)
          by (transitivity (fst (ExtractSdkVersion a x)); [apply ExtractSdkVersion_fst|now rewrite E]);
        first [ apply ExtractSdkVersion_Some in E
              | apply ExtractSdkVersion_None in E ]
    end.

Lemma root_check_passes (el : xml.Element) :
  negb (String.eqb (xml.el_namespace_uri el) "")
  || negb (String.eqb (xml.el_name el) "manifest") = false ->
  xml.el_namespace_uri el = "" /\ xml.el_name el = "manifest".
Proof.
  intros Hcheck. apply Bool.orb_false_iff in Hcheck. destruct Hcheck as [Hns Hname].
  apply Bool.negb_false_iff in Hns, Hname.
  split; now apply String.eqb_eq.
Qed.

(** X13. The diagnostics of an extraction: what was reported before stays,
    and at most one entry is appended. Nothing is appended on success. A
    failure appends nothing exactly when the document has no root element;
    otherwise it appends one error, whose source is in the file of the
    document. *)
Theorem app_info_diagnostics (xml_res : xml.XmlResource) (diag : IDiagnostics) :
  exists reported,
    snd (ExtractAppInfoFromBinaryManifest xml_res diag) = diag ++ reported /\
    (List.length reported <= 1)%nat /\
    (fst (ExtractAppInfoFromBinaryManifest xml_res diag) <> None -> reported = []) /\
    (fst (ExtractAppInfoFromBinaryManifest xml_res diag) = None ->
     (reported = [] <-> xml.FindRootElement (xml.root xml_res) = None)) /\
    (forall d, In d reported ->
               level d = Error /\
               exists s, source (diag_message d) = Some s /\
                         path s = path (xml.file_source xml_res)).
Proof.
  unfold ExtractAppInfoFromBinaryManifest, diag_Error, invalid_at.
  destruct (xml.FindRootElement (xml.root xml_res)) as [manifest_el|] eqn:Hroot.
  2:{ exists []. rewrite app_nil_r. simpl. repeat split; auto; try tauto. }
  repeat extract_step; cbn [fst snd];
    first
      [ (* success *)
        exists []; rewrite app_nil_r;
        split; [reflexivity|]; split; [simpl; lia|];
        split; [reflexivity|]; split; [discriminate|]; intros d []
      | (* one error *)
        eexists; split; [reflexivity|]; split; [simpl; lia|];
        split; [intros E; now contradiction E|];
        split; [intros _; split; discriminate|];
        intros d [<-|[]]; split; [reflexivity|];
        eexists; split; reflexivity ].
Qed.

(** X14. What a successful extraction returns. The diagnostics are
    unchanged. The root element is [manifest] with an empty namespace; the
    package is what the string extractor makes of its [package] attribute,
    and is not empty; version code, revision code and split name are what the
    integer, integer and string extractor make of [android:versionCode],
    [android:revisionCode] and [split], and are unset exactly when the
    attribute is missing; a split name is not empty; the minimum SDK version
    is what the SDK-version extractor makes of [android:minSdkVersion] of the
    [uses-sdk] child, unset when the child or the attribute is missing. *)
Theorem extracted_app_info (xml_res : xml.XmlResource) (diag diag' : IDiagnostics)
        (app_info : AppInfo) :
  ExtractAppInfoFromBinaryManifest xml_res diag = (Some app_info, diag') ->
  diag' = diag /\
  exists manifest_el,
    xml.FindRootElement (xml.root xml_res) = Some manifest_el /\
    xml.el_namespace_uri manifest_el = "" /\
    xml.el_name manifest_el = "manifest" /\
    optional_attribute manifest_el "" "package" ExtractCompiledString
    = Some (package app_info) /\
    package app_info <> "" /\
    version_code app_info
    = optional_attribute manifest_el kSchemaAndroid "versionCode" ExtractCompiledInt /\
    (version_code app_info = None <->
     xml.FindAttribute manifest_el kSchemaAndroid "versionCode" = None) /\
    revision_code app_info
    = optional_attribute manifest_el kSchemaAndroid "revisionCode" ExtractCompiledInt /\
    (revision_code app_info = None <->
     xml.FindAttribute manifest_el kSchemaAndroid "revisionCode" = None) /\
    split_name app_info
    = optional_attribute manifest_el "" "split" ExtractCompiledString /\
    (split_name app_info = None <-> xml.FindAttribute manifest_el "" "split" = None) /\
    split_name app_info <> Some "" /\
    min_sdk_version app_info
    = match xml.FindChild manifest_el "" "uses-sdk" with
      | Some uses_sdk_el =>
          optional_attribute uses_sdk_el kSchemaAndroid "minSdkVersion" ExtractSdkVersion
      | None => None
      end.
Proof.
  unfold ExtractAppInfoFromBinaryManifest, diag_Error, invalid_at.
  repeat extract_step; intros E; inversion E; subst; clear E.
  all: split; [reflexivity|].
  all: exists manifest_el; split; [reflexivity|].
  all: destruct (root_check_passes _ Hcheck) as [Hns Hname].
  all: split; [exact Hns|]; split; [exact Hname|].
  all: extracted_values.
  all: unfold optional_attribute; simpl.
  all: repeat match goal with
         | E : xml.FindChild _ _ _ = _ |- _ => rewrite E; clear E
         | E : xml.FindAttribute _ _ _ = _ |- _ => rewrite E; clear E
         | E : fst _ = _ |- _ => rewrite E; clear E
         end.
  all: repeat split; try reflexivity; try discriminate; try tauto;
    try (intros E; inversion E; subst; tauto).
Qed.


(** X16. The root check comes first: a root element with a namespace, or
    with another name than [manifest], makes the extraction fail with "root
    tag must be <manifest>", anchored at the source of the document, whatever
    attributes and children the element has. *)
Theorem wrong_root_rejected (xml_res : xml.XmlResource) (diag : IDiagnostics)
        (root_el : xml.Element) :
  xml.FindRootElement (xml.root xml_res) = Some root_el ->
  xml.el_namespace_uri root_el <> "" \/ xml.el_name root_el <> "manifest" ->
  ExtractAppInfoFromBinaryManifest xml_res diag
  = (None,
     diag ++ [mkActual Error
                (mkDiagMessage (Some (xml.file_source xml_res))
                               "root tag must be <manifest>")]).
Proof.
  intros Hroot Hwrong.
  unfold ExtractAppInfoFromBinaryManifest. rewrite Hroot.
  assert (Hcheck : negb (String.eqb (xml.el_namespace_uri root_el) "")
                   || negb (String.eqb (xml.el_name root_el) "manifest") = true).
  { apply Bool.orb_true_iff.
    destruct Hwrong as [Hw|Hw]; [left|right];
      apply Bool.negb_true_iff; now apply String.eqb_neq. }
  now rewrite Hcheck.
Qed.

End AppInfoMore.

(* ------------------------------------------------------------------------- *)
(** ** Further properties: GenerateSplitManifest *)

Section SplitManifestMore.
Context {Axes : Type} `{ConfigOps Axes} `{Platform} `{ResourceUtils}.

Lemma split_attribute_name_not_empty (app_info : AppInfo)
      (constraints : SplitConstraints Axes) :
  String.eqb (split_attribute_name app_info constraints) "" = false.
Proof.
  unfold split_attribute_name.
  destruct (split_name app_info) as [[|a n]|]; reflexivity.
Qed.

(** X17. Reading back a generated split manifest. When the package is not
    empty and [TYPE_INT_DEC] is a tag of the integer range,
    [ExtractAppInfoFromBinaryManifest] succeeds on the document that
    [GenerateSplitManifest] makes and reports nothing; it returns the same
    package, version code and revision code; its split name is the generated
    [split] attribute (not the split name that was given), and it has no
    minimum SDK version, whatever the given AppInfo had. *)
Theorem generated_manifest_reads_back (app_info : AppInfo)
        (constraints : SplitConstraints Axes) (diag : IDiagnostics) :
  package app_info <> "" ->
  TYPE_FIRST_INT <= TYPE_INT_DEC <= TYPE_LAST_INT ->
  ExtractAppInfoFromBinaryManifest (GenerateSplitManifest app_info constraints) diag
  = (Some {| package := package app_info;
             min_sdk_version := None;
             version_code := version_code app_info;
             revision_code := revision_code app_info;
             split_name := Some (split_attribute_name app_info constraints) |},
     diag).
Proof.
  intros Hpackage [Hfirst Hlast].
  apply String.eqb_neq in Hpackage.
  apply Z.leb_le in Hfirst, Hlast.
  pose proof (split_attribute_name_not_empty app_info constraints) as Hsplit.
  destruct app_info as [pkg min_sdk [vc|] [rc|] [sn|]]; simpl in Hpackage;
    unfold ExtractAppInfoFromBinaryManifest, GenerateSplitManifest,
      xml.FindAttribute, xml.FindChild, xml.attribute_matches,
      ExtractCompiledString, ExtractCompiledInt, is_int_type;
    simpl;
    rewrite ?Bool.andb_false_r, ?String.eqb_refl; simpl;
    rewrite ?Hpackage, ?Hfirst, ?Hlast, ?Hsplit; simpl;
    rewrite ?Bool.andb_false_r, ?String.eqb_refl; simpl;
    rewrite ?Hpackage, ?Hfirst, ?Hlast, ?Hsplit; simpl;
    reflexivity.
Qed.

(** X18. The shape of a generated split manifest. The root node declares the
    [android] namespace and has one child, the [manifest] element, which has
    no namespace and one child, the [application] element, whose only
    attribute is [android:hasCode] with the text "false" and the compiled
    boolean 0. The attributes of [manifest] start with the unqualified
    [package], no two of them have the same name, and there are two of them
    plus one for each of version code, revision code and split name that the
    AppInfo has; [android:versionCode] carries the decimal text and the
    compiled decimal integer of the version code. *)
Theorem generated_manifest_shape (app_info : AppInfo)
        (constraints : SplitConstraints Axes) :
  exists manifest_el,
    xml.root (GenerateSplitManifest app_info constraints)
    = Some (xml.NamespaceNode
              (xml.mkNamespace "android" kSchemaAndroid [xml.ElementNode manifest_el])) /\
    xml.el_namespace_uri manifest_el = "" /\
    xml.el_name manifest_el = "manifest" /\
    xml.children manifest_el
    = [xml.ElementNode
         (xml.mkElement 0 "" "application"
            [xml.mkAttribute kSchemaAndroid "hasCode" "false"
               (Some (xml.mkAaptAttribute (Some 0x0101000c)))
               (Some (Item_BinaryPrimitive (mkRes_value TYPE_INT_BOOLEAN 0)))]
            [])] /\
    hd_error (xml.attributes manifest_el)
    = Some (xml.mkAttribute "" "package" (package app_info) None None) /\
    NoDup (map xml.name (xml.attributes manifest_el)) /\
    List.length (xml.attributes manifest_el)
    = (2 + match version_code app_info with Some _ => 1 | None => 0 end
       + match revision_code app_info with Some _ => 1 | None => 0 end
       + match split_name app_info with Some _ => 1 | None => 0 end)%nat /\
    (forall v, version_code app_info = Some v ->
               In (xml.mkAttribute kSchemaAndroid "versionCode" (to_string v)
                     (Some (xml.mkAaptAttribute (Some 0x0101021b)))
                     (Some (Item_BinaryPrimitive (mkRes_value TYPE_INT_DEC v))))
                  (xml.attributes manifest_el)) /\
    (forall v, revision_code app_info = Some v ->
               In (xml.mkAttribute kSchemaAndroid "revisionCode" (to_string v)
                     (Some (xml.mkAaptAttribute (Some 0x010104d5)))
                     (Some (Item_BinaryPrimitive (mkRes_value TYPE_INT_DEC v))))
                  (xml.attributes manifest_el)).
Proof.
  destruct app_info as [pkg min_sdk [vc|] [rc|] [sn|]];
    (eexists; split; [reflexivity|]; simpl;
     do 4 (split; [reflexivity|]);
     split;
     [ repeat (constructor; [simpl; intuition discriminate|]); constructor
     | split; [reflexivity|];
       split; intros v E; inversion E; subst; simpl; tauto ]).
Qed.

End SplitManifestMore.

(* ------------------------------------------------------------------------- *)
(** ** The further properties at concrete inputs *)

Lemma config_filter_success_witness :
  @ParseConfigFilterParameters Z Sample.config_ops SampleFilter.locale_ops
    SampleFilter.filter_ops ["en,hdpi"; "fr"] []
  = (Some [Sample.en; Sample.fr],
     [@density_warning Z Sample.config_ops (mkConfig 240 4 0)]).
Proof.
  apply (@config_filter_success Z Sample.config_ops SampleFilter.locale_ops
           SampleFilter.filter_ops ["en,hdpi"; "fr"] []
           [Sample.en; mkConfig 240 4 0; Sample.fr]).
  repeat constructor.
Defined.

Lemma config_filter_failure_witness :
  @ParseConfigFilterParameters Z Sample.config_ops SampleFilter.locale_ops
    SampleFilter.filter_ops ["en,hdpi"; "f9,mdpi"] []
  = (None,
     [@density_warning Z Sample.config_ops (mkConfig 240 4 0);
      invalid_filter_config "f9"]).
Proof.
  apply (@config_filter_failure Z Sample.config_ops SampleFilter.locale_ops
           SampleFilter.filter_ops ["en,hdpi"; "f9,mdpi"] []
           ["en"; "hdpi"] "f9" ["mdpi"] [Sample.en; mkConfig 240 4 0]).
  - reflexivity.
  - repeat constructor.
  - reflexivity.
Defined.

Lemma config_filter_outcome_witness :
  exists descriptors added warned : list (ConfigDescription Z),
    @resolve_all Z Sample.config_ops SampleFilter.locale_ops
      ["en"; "hdpi"; "fr"] descriptors /\
    added = List.filter without_density descriptors /\
    warned = List.filter has_density descriptors /\
    @add_all Z SampleFilter.filter_ops added make_filter = [Sample.en; Sample.fr] /\
    (List.length added + List.length warned = 3)%nat.
Proof.
  destruct (proj1 (@config_filter_outcome Z Sample.config_ops SampleFilter.locale_ops
                     SampleFilter.filter_ops ["en,hdpi"; "fr"] [])
              [Sample.en; Sample.fr] _ eq_refl)
    as (descriptors & added & warned & Hall & Hadded & Hwarned & _ & Hfilter
        & _ & _ & _ & Hcount).
  exists descriptors, added, warned.
  split; [exact Hall|]. split; [exact Hadded|]. split; [exact Hwarned|].
  split; [now symmetry|exact Hcount].
Defined.

Lemma config_filter_depends_on_tokens_witness :
  @ParseConfigFilterParameters Z Sample.config_ops SampleFilter.locale_ops
    SampleFilter.filter_ops ["en,fr"] []
  = @ParseConfigFilterParameters Z Sample.config_ops SampleFilter.locale_ops
      SampleFilter.filter_ops ["en"; "fr"] [].
Proof.
  exact (@config_filter_depends_on_tokens Z Sample.config_ops SampleFilter.locale_ops
           SampleFilter.filter_ops ["en,fr"] ["en"; "fr"] [] eq_refl).
Defined.

Lemma adjusted_descriptors_witness :
  sdkVersion Sample.en = 0 \/ 21 < sdkVersion Sample.en.
Proof.
  exact (proj1 (@adjusted_descriptors Z Sample.config_ops 21
                  [mkSplitConstraints [Sample.en_v18; Sample.en_v23]]
                  0%nat (mkSplitConstraints [Sample.en; Sample.en_v23]) Sample.en
                  eq_refl (or_introl eq_refl))).
Defined.

Lemma adjust_twice_is_adjust_max_witness :
  @AdjustSplitConstraintsForMinSdk Z Sample.config_ops 18
    (@AdjustSplitConstraintsForMinSdk Z Sample.config_ops 21
       [mkSplitConstraints [Sample.en_v18; Sample.en_v19; Sample.en_v23]])
  = @AdjustSplitConstraintsForMinSdk Z Sample.config_ops (Z.max 18 21)
      [mkSplitConstraints [Sample.en_v18; Sample.en_v19; Sample.en_v23]].
Proof.
  exact (@adjust_twice_is_adjust_max Z Sample.config_ops Sample_order 18 21
           [mkSplitConstraints [Sample.en_v18; Sample.en_v19; Sample.en_v23]]).
Defined.

Lemma adjust_fixed_points_witness :
  @AdjustSplitConstraintsForMinSdk Z Sample.config_ops 21
    [mkSplitConstraints [Sample.en; Sample.en_v23]]
  = [mkSplitConstraints [Sample.en; Sample.en_v23]].
Proof.
  apply (proj2 (@adjust_fixed_points Z Sample.config_ops Sample_order 21
                  [mkSplitConstraints [Sample.en; Sample.en_v23]])).
  intros constraints [<-|[]]. split.
  - repeat constructor.
  - intros c [<-|[<-|[]]]; simpl; [left; reflexivity|right; lia].
Defined.

Lemma split_parameter_success_iff_witness :
  split_ok (@ParseSplitParameter Z Sample.config_ops Sample.platform
              "out.apk:en,fr" [] "" empty_constraints) = true.
Proof.
  apply (proj1 (@split_parameter_success_iff Z Sample.config_ops Sample.platform
                  "out.apk:en,fr" [] "" empty_constraints)).
  exists "out.apk", "en,fr", [Sample.en; Sample.fr].
  split; [reflexivity|repeat constructor].
Defined.

Lemma split_parameter_token_order_irrelevant_witness :
  out_split (@ParseSplitParameter Z Sample.config_ops Sample.platform
               "out.apk:fr,en,fr" [] "" empty_constraints)
  = out_split (@ParseSplitParameter Z Sample.config_ops Sample.platform
                 "out.apk:en,fr" [] "" empty_constraints).
Proof.
  apply (@split_parameter_token_order_irrelevant Z Sample.config_ops Sample.platform
           Sample_order "out.apk:fr,en,fr" "out.apk:en,fr" [] [] "" ""
           empty_constraints "out.apk" "fr,en,fr" "en,fr"
           [Sample.fr; Sample.en; Sample.fr] [Sample.en; Sample.fr]).
  - constructor.
  - reflexivity.
  - reflexivity.
  - repeat constructor.
  - repeat constructor.
  - intros x. simpl. tauto.
Defined.

Lemma set_invariant_kept_witness :
  @set_wf Z Sample.config_ops
    (configs (out_split (@ParseSplitParameter Z Sample.config_ops Sample.platform
                           "out.apk:fr,en" [] "" empty_constraints))).
Proof.
  exact (proj1 (proj2 (@set_invariant_kept Z Sample.config_ops Sample.platform
                         Sample_order "out.apk:fr,en" [] "" empty_constraints 0 []))).
Defined.

Lemma extractors_error_discipline_witness :
  ExtractCompiledString Sample.package_attr "kept" = (Some "com.example", "kept") /\
  "com.example" <> "".
Proof.
  split; [reflexivity|].
  exact (proj1 (proj1 (@extractors_error_discipline Sample.platform
                         Sample.resource_utils Sample.package_attr "kept")
                  "com.example" "kept" eq_refl)).
Defined.

Lemma sdk_version_of_compiled_integer_witness :
  exists sdk_version,
    @ExtractSdkVersion Sample.platform Sample.resource_utils
      (xml.mkAttribute "" "minSdkVersion" "" None
         (Some (Item_BinaryPrimitive (mkRes_value 0x10 4294967295)))) ""
    = (Some sdk_version, "") /\ sdk_version = -1.
Proof.
  assert (Hrange : 0 <= 4294967295 < 2 ^ 32) by lia.
  assert (Hhigh : 2 ^ 31 <= 4294967295) by lia.
  destruct (proj2 (@sdk_version_of_compiled_integer Sample.platform
                     Sample.resource_utils
                     (xml.mkAttribute "" "minSdkVersion" "" None
                        (Some (Item_BinaryPrimitive (mkRes_value 0x10 4294967295))))
                     "" (mkRes_value 0x10 4294967295) eq_refl eq_refl Hrange))
    as (sdk_version & Hsdk & _ & _ & _ & Hwrap).
  exists sdk_version. split; [exact Hsdk|].
  destruct (Hwrap Hhigh) as [-> _]. reflexivity.
Defined.

Lemma app_info_diagnostics_witness :
  exists reported,
    snd (@ExtractAppInfoFromBinaryManifest Sample.platform Sample.resource_utils
           SampleFilter.compiled_manifest []) = [] ++ reported /\
    (List.length reported <= 1)%nat.
Proof.
  destruct (@app_info_diagnostics Sample.platform Sample.resource_utils
              SampleFilter.compiled_manifest [])
    as (reported & Hsnd & Hlen & _).
  exists reported. split; [exact Hsnd|exact Hlen].
Defined.

Lemma extracted_app_info_witness :
  package (mkAppInfo "com.example" (Some 21) (Some 7) None None) <> "" /\
  @ExtractAppInfoFromBinaryManifest Sample.platform Sample.resource_utils
    SampleFilter.readable_manifest []
  = (Some (mkAppInfo "com.example" (Some 21) (Some 7) None None), []).
Proof.
  split; [|reflexivity].
  destruct (proj2 (@extracted_app_info Sample.platform Sample.resource_utils
                     SampleFilter.readable_manifest [] []
                     (mkAppInfo "com.example" (Some 21) (Some 7) None None)
                     eq_refl))
    as (manifest_el & _ & _ & _ & _ & Hpackage & _).
  exact Hpackage.
Defined.


Lemma wrong_root_rejected_witness :
  @ExtractAppInfoFromBinaryManifest Sample.platform Sample.resource_utils
    SampleFilter.layout_document []
  = (None,
     [mkActual Error
        (mkDiagMessage (Some (mkSource "res/layout/main.xml" None))
                       "root tag must be <manifest>")]).
Proof.
  apply (@wrong_root_rejected Sample.platform Sample.resource_utils
           SampleFilter.layout_document [] (xml.mkElement 1 "" "LinearLayout" [] [])).
  - reflexivity.
  - right. discriminate.
Defined.

Lemma generated_manifest_reads_back_witness :
  @ExtractAppInfoFromBinaryManifest Sample.platform Sample.resource_utils
    (@GenerateSplitManifest Z Sample.config_ops Sample.platform
       (mkAppInfo "com.example" (Some 21) (Some 7) None (Some "feature"))
       (mkSplitConstraints [Sample.en_v18; Sample.fr])) []
  = (Some (mkAppInfo "com.example" None (Some 7) None
             (Some "feature.config.en-v18_fr")), []).
Proof.
  apply (@generated_manifest_reads_back Z Sample.config_ops Sample.platform
           Sample.resource_utils
           (mkAppInfo "com.example" (Some 21) (Some 7) None (Some "feature"))
           (mkSplitConstraints [Sample.en_v18; Sample.fr]) []).
  - discriminate.
  - simpl. lia.
Defined.

Lemma generated_manifest_shape_witness :
  exists manifest_el,
    xml.root (@GenerateSplitManifest Z Sample.config_ops Sample.platform
                (mkAppInfo "com.example" None (Some 7) None None)
                (mkSplitConstraints [Sample.fr]))
    = Some (xml.NamespaceNode
              (xml.mkNamespace "android" "http://schemas.android.com/apk/res/android"
                 [xml.ElementNode manifest_el])) /\
    List.length (xml.attributes manifest_el) = 3%nat.
Proof.
  destruct (@generated_manifest_shape Z Sample.config_ops Sample.platform
              (mkAppInfo "com.example" None (Some 7) None None)
              (mkSplitConstraints [Sample.fr]))
    as (manifest_el & Hroot & _ & _ & _ & _ & _ & Hlen & _).
  exists manifest_el. split; [exact Hroot|exact Hlen].
Defined.
